(** * Weather API backend ([src/app.py]): a shallow embedding of the Flask
    handlers and the properties of the response normaliser.

    The handlers are thin: each one reads the query arguments, performs at
    most one outbound [requests.get], and reshapes the provider's JSON.
    The embedding follows that structure:

    - [Unicode]: the case data that [str.capitalize()] reads;
    - [Py]: the fragment of Python's object model that the handlers rely on
      (values returned by [response.json()], exceptions, [str] methods,
      true division and [round(x, 1)] on binary64 floats);
    - [Http]: the [requests] response object and the outbound-call monad;
    - the handlers themselves, inside a section that abstracts over the
      provider credential and the interpreter's wording of built-in errors.
*)

From Stdlib Require Import ZArith String Ascii List.
From Stdlib Require Import Floats.SpecFloat.
From stdpp Require Import gmap strings list pretty.

Local Open Scope string_scope.

(** ** Unicode case data

    [str.capitalize()] maps characters through the case tables of the Unicode
    character database.  The tables below are those of Unicode 14.0, the
    version of CPython 3.11: the full lower-case and title-case mappings and
    the two properties that decide the form of a lower-case sigma. *)

Module Unicode.

Local Open Scope N_scope.

(** A run [(first, count, stride, image)] maps [first + i * stride] to
    [image + i * stride] for [i < count]. *)
Definition run : Type := N * N * N * N.

Definition run_image (c : N) (r : run) : option N :=
  let '(first, count, stride, image) := r in
  if (first <=? c) && (c <? first + count * stride) && ((c - first) mod stride =? 0)
  then Some (image + (c - first))
  else None.

Fixpoint runs_image (c : N) (rs : list run) : option N :=
  match rs with
  | nil => None
  | r :: rs =>
      match run_image c r with
      | Some n => Some n
      | None => runs_image c rs
      end
  end.

Fixpoint special_image (c : N) (table : list (N * list N)) : option (list N) :=
  match table with
  | nil => None
  | (k, image) :: table => if k =? c then Some image else special_image c table
  end.

Fixpoint in_ranges (c : N) (ranges : list (N * N)) : bool :=
  match ranges with
  | nil => false
  | (lo, hi) :: ranges => ((lo <=? c) && (c <=? hi)) || in_ranges c ranges
  end.

(** The characters with a lower-case mapping of one character. *)
Definition lower_runs : list run :=
  [(0x41, 26, 1, 0x61); (0xC0, 23, 1, 0xE0); (0xD8, 7, 1, 0xF8);
   (0x100, 24, 2, 0x101); (0x132, 3, 2, 0x133); (0x139, 8, 2, 0x13A);
   (0x14A, 23, 2, 0x14B); (0x178, 1, 1, 0xFF); (0x179, 3, 2, 0x17A);
   (0x181, 1, 1, 0x253); (0x182, 2, 2, 0x183); (0x186, 1, 1, 0x254);
   (0x187, 1, 1, 0x188); (0x189, 2, 1, 0x256); (0x18B, 1, 1, 0x18C);
   (0x18E, 1, 1, 0x1DD); (0x18F, 1, 1, 0x259); (0x190, 1, 1, 0x25B);
   (0x191, 1, 1, 0x192); (0x193, 1, 1, 0x260); (0x194, 1, 1, 0x263);
   (0x196, 1, 1, 0x269); (0x197, 1, 1, 0x268); (0x198, 1, 1, 0x199);
   (0x19C, 1, 1, 0x26F); (0x19D, 1, 1, 0x272); (0x19F, 1, 1, 0x275);
   (0x1A0, 3, 2, 0x1A1); (0x1A6, 1, 1, 0x280); (0x1A7, 1, 1, 0x1A8);
   (0x1A9, 1, 1, 0x283); (0x1AC, 1, 1, 0x1AD); (0x1AE, 1, 1, 0x288);
   (0x1AF, 1, 1, 0x1B0); (0x1B1, 2, 1, 0x28A); (0x1B3, 2, 2, 0x1B4);
   (0x1B7, 1, 1, 0x292); (0x1B8, 1, 1, 0x1B9); (0x1BC, 1, 1, 0x1BD);
   (0x1C4, 1, 1, 0x1C6); (0x1C5, 1, 1, 0x1C6); (0x1C7, 1, 1, 0x1C9);
   (0x1C8, 1, 1, 0x1C9); (0x1CA, 1, 1, 0x1CC); (0x1CB, 9, 2, 0x1CC);
   (0x1DE, 9, 2, 0x1DF); (0x1F1, 1, 1, 0x1F3); (0x1F2, 2, 2, 0x1F3);
   (0x1F6, 1, 1, 0x195); (0x1F7, 1, 1, 0x1BF); (0x1F8, 20, 2, 0x1F9);
   (0x220, 1, 1, 0x19E); (0x222, 9, 2, 0x223); (0x23A, 1, 1, 0x2C65);
   (0x23B, 1, 1, 0x23C); (0x23D, 1, 1, 0x19A); (0x23E, 1, 1, 0x2C66);
   (0x241, 1, 1, 0x242); (0x243, 1, 1, 0x180); (0x244, 1, 1, 0x289);
   (0x245, 1, 1, 0x28C); (0x246, 5, 2, 0x247); (0x370, 2, 2, 0x371);
   (0x376, 1, 1, 0x377); (0x37F, 1, 1, 0x3F3); (0x386, 1, 1, 0x3AC);
   (0x388, 3, 1, 0x3AD); (0x38C, 1, 1, 0x3CC); (0x38E, 2, 1, 0x3CD);
   (0x391, 17, 1, 0x3B1); (0x3A3, 9, 1, 0x3C3); (0x3CF, 1, 1, 0x3D7);
   (0x3D8, 12, 2, 0x3D9); (0x3F4, 1, 1, 0x3B8); (0x3F7, 1, 1, 0x3F8);
   (0x3F9, 1, 1, 0x3F2); (0x3FA, 1, 1, 0x3FB); (0x3FD, 3, 1, 0x37B);
   (0x400, 16, 1, 0x450); (0x410, 32, 1, 0x430); (0x460, 17, 2, 0x461);
   (0x48A, 27, 2, 0x48B); (0x4C0, 1, 1, 0x4CF); (0x4C1, 7, 2, 0x4C2);
   (0x4D0, 48, 2, 0x4D1); (0x531, 38, 1, 0x561); (0x10A0, 38, 1, 0x2D00);
   (0x10C7, 1, 1, 0x2D27); (0x10CD, 1, 1, 0x2D2D); (0x13A0, 80, 1, 0xAB70);
   (0x13F0, 6, 1, 0x13F8); (0x1C90, 43, 1, 0x10D0); (0x1CBD, 3, 1, 0x10FD);
   (0x1E00, 75, 2, 0x1E01); (0x1E9E, 1, 1, 0xDF); (0x1EA0, 48, 2, 0x1EA1);
   (0x1F08, 8, 1, 0x1F00); (0x1F18, 6, 1, 0x1F10); (0x1F28, 8, 1, 0x1F20);
   (0x1F38, 8, 1, 0x1F30); (0x1F48, 6, 1, 0x1F40); (0x1F59, 4, 2, 0x1F51);
   (0x1F68, 8, 1, 0x1F60); (0x1F88, 8, 1, 0x1F80); (0x1F98, 8, 1, 0x1F90);
   (0x1FA8, 8, 1, 0x1FA0); (0x1FB8, 2, 1, 0x1FB0); (0x1FBA, 2, 1, 0x1F70);
   (0x1FBC, 1, 1, 0x1FB3); (0x1FC8, 4, 1, 0x1F72); (0x1FCC, 1, 1, 0x1FC3);
   (0x1FD8, 2, 1, 0x1FD0); (0x1FDA, 2, 1, 0x1F76); (0x1FE8, 2, 1, 0x1FE0);
   (0x1FEA, 2, 1, 0x1F7A); (0x1FEC, 1, 1, 0x1FE5); (0x1FF8, 2, 1, 0x1F78);
   (0x1FFA, 2, 1, 0x1F7C); (0x1FFC, 1, 1, 0x1FF3); (0x2126, 1, 1, 0x3C9);
   (0x212A, 1, 1, 0x6B); (0x212B, 1, 1, 0xE5); (0x2132, 1, 1, 0x214E);
   (0x2160, 16, 1, 0x2170); (0x2183, 1, 1, 0x2184); (0x24B6, 26, 1, 0x24D0);
   (0x2C00, 48, 1, 0x2C30); (0x2C60, 1, 1, 0x2C61); (0x2C62, 1, 1, 0x26B);
   (0x2C63, 1, 1, 0x1D7D); (0x2C64, 1, 1, 0x27D); (0x2C67, 3, 2, 0x2C68);
   (0x2C6D, 1, 1, 0x251); (0x2C6E, 1, 1, 0x271); (0x2C6F, 1, 1, 0x250);
   (0x2C70, 1, 1, 0x252); (0x2C72, 1, 1, 0x2C73); (0x2C75, 1, 1, 0x2C76);
   (0x2C7E, 2, 1, 0x23F); (0x2C80, 50, 2, 0x2C81); (0x2CEB, 2, 2, 0x2CEC);
   (0x2CF2, 1, 1, 0x2CF3); (0xA640, 23, 2, 0xA641); (0xA680, 14, 2, 0xA681);
   (0xA722, 7, 2, 0xA723); (0xA732, 31, 2, 0xA733); (0xA779, 2, 2, 0xA77A);
   (0xA77D, 1, 1, 0x1D79); (0xA77E, 5, 2, 0xA77F); (0xA78B, 1, 1, 0xA78C);
   (0xA78D, 1, 1, 0x265); (0xA790, 2, 2, 0xA791); (0xA796, 10, 2, 0xA797);
   (0xA7AA, 1, 1, 0x266); (0xA7AB, 1, 1, 0x25C); (0xA7AC, 1, 1, 0x261);
   (0xA7AD, 1, 1, 0x26C); (0xA7AE, 1, 1, 0x26A); (0xA7B0, 1, 1, 0x29E);
   (0xA7B1, 1, 1, 0x287); (0xA7B2, 1, 1, 0x29D); (0xA7B3, 1, 1, 0xAB53);
   (0xA7B4, 8, 2, 0xA7B5); (0xA7C4, 1, 1, 0xA794); (0xA7C5, 1, 1, 0x282);
   (0xA7C6, 1, 1, 0x1D8E); (0xA7C7, 2, 2, 0xA7C8); (0xA7D0, 1, 1, 0xA7D1);
   (0xA7D6, 2, 2, 0xA7D7); (0xA7F5, 1, 1, 0xA7F6); (0xFF21, 26, 1, 0xFF41);
   (0x10400, 40, 1, 0x10428); (0x104B0, 36, 1, 0x104D8); (0x10570, 11, 1, 0x10597);
   (0x1057C, 15, 1, 0x105A3); (0x1058C, 7, 1, 0x105B3); (0x10594, 2, 1, 0x105BB);
   (0x10C80, 51, 1, 0x10CC0); (0x118A0, 32, 1, 0x118C0); (0x16E40, 32, 1, 0x16E60);
   (0x1E900, 34, 1, 0x1E922)]%list.

(** The characters with a lower-case mapping of several characters. *)
Definition lower_special : list (N * list N) :=
  [(0x130, [0x69; 0x307]%list)]%list.

(** The characters with a title-case mapping of one character. *)
Definition title_runs : list run :=
  [(0x61, 26, 1, 0x41); (0xB5, 1, 1, 0x39C); (0xE0, 23, 1, 0xC0);
   (0xF8, 7, 1, 0xD8); (0xFF, 1, 1, 0x178); (0x101, 24, 2, 0x100);
   (0x131, 1, 1, 0x49); (0x133, 3, 2, 0x132); (0x13A, 8, 2, 0x139);
   (0x14B, 23, 2, 0x14A); (0x17A, 3, 2, 0x179); (0x17F, 1, 1, 0x53);
   (0x180, 1, 1, 0x243); (0x183, 2, 2, 0x182); (0x188, 1, 1, 0x187);
   (0x18C, 1, 1, 0x18B); (0x192, 1, 1, 0x191); (0x195, 1, 1, 0x1F6);
   (0x199, 1, 1, 0x198); (0x19A, 1, 1, 0x23D); (0x19E, 1, 1, 0x220);
   (0x1A1, 3, 2, 0x1A0); (0x1A8, 1, 1, 0x1A7); (0x1AD, 1, 1, 0x1AC);
   (0x1B0, 1, 1, 0x1AF); (0x1B4, 2, 2, 0x1B3); (0x1B9, 1, 1, 0x1B8);
   (0x1BD, 1, 1, 0x1BC); (0x1BF, 1, 1, 0x1F7); (0x1C4, 1, 1, 0x1C5);
   (0x1C6, 1, 1, 0x1C5); (0x1C7, 1, 1, 0x1C8); (0x1C9, 1, 1, 0x1C8);
   (0x1CA, 1, 1, 0x1CB); (0x1CC, 9, 2, 0x1CB); (0x1DD, 1, 1, 0x18E);
   (0x1DF, 9, 2, 0x1DE); (0x1F1, 1, 1, 0x1F2); (0x1F3, 2, 2, 0x1F2);
   (0x1F9, 20, 2, 0x1F8); (0x223, 9, 2, 0x222); (0x23C, 1, 1, 0x23B);
   (0x23F, 2, 1, 0x2C7E); (0x242, 1, 1, 0x241); (0x247, 5, 2, 0x246);
   (0x250, 1, 1, 0x2C6F); (0x251, 1, 1, 0x2C6D); (0x252, 1, 1, 0x2C70);
   (0x253, 1, 1, 0x181); (0x254, 1, 1, 0x186); (0x256, 2, 1, 0x189);
   (0x259, 1, 1, 0x18F); (0x25B, 1, 1, 0x190); (0x25C, 1, 1, 0xA7AB);
   (0x260, 1, 1, 0x193); (0x261, 1, 1, 0xA7AC); (0x263, 1, 1, 0x194);
   (0x265, 1, 1, 0xA78D); (0x266, 1, 1, 0xA7AA); (0x268, 1, 1, 0x197);
   (0x269, 1, 1, 0x196); (0x26A, 1, 1, 0xA7AE); (0x26B, 1, 1, 0x2C62);
   (0x26C, 1, 1, 0xA7AD); (0x26F, 1, 1, 0x19C); (0x271, 1, 1, 0x2C6E);
   (0x272, 1, 1, 0x19D); (0x275, 1, 1, 0x19F); (0x27D, 1, 1, 0x2C64);
   (0x280, 1, 1, 0x1A6); (0x282, 1, 1, 0xA7C5); (0x283, 1, 1, 0x1A9);
   (0x287, 1, 1, 0xA7B1); (0x288, 1, 1, 0x1AE); (0x289, 1, 1, 0x244);
   (0x28A, 2, 1, 0x1B1); (0x28C, 1, 1, 0x245); (0x292, 1, 1, 0x1B7);
   (0x29D, 1, 1, 0xA7B2); (0x29E, 1, 1, 0xA7B0); (0x345, 1, 1, 0x399);
   (0x371, 2, 2, 0x370); (0x377, 1, 1, 0x376); (0x37B, 3, 1, 0x3FD);
   (0x3AC, 1, 1, 0x386); (0x3AD, 3, 1, 0x388); (0x3B1, 17, 1, 0x391);
   (0x3C2, 1, 1, 0x3A3); (0x3C3, 9, 1, 0x3A3); (0x3CC, 1, 1, 0x38C);
   (0x3CD, 2, 1, 0x38E); (0x3D0, 1, 1, 0x392); (0x3D1, 1, 1, 0x398);
   (0x3D5, 1, 1, 0x3A6); (0x3D6, 1, 1, 0x3A0); (0x3D7, 1, 1, 0x3CF);
   (0x3D9, 12, 2, 0x3D8); (0x3F0, 1, 1, 0x39A); (0x3F1, 1, 1, 0x3A1);
   (0x3F2, 1, 1, 0x3F9); (0x3F3, 1, 1, 0x37F); (0x3F5, 1, 1, 0x395);
   (0x3F8, 1, 1, 0x3F7); (0x3FB, 1, 1, 0x3FA); (0x430, 32, 1, 0x410);
   (0x450, 16, 1, 0x400); (0x461, 17, 2, 0x460); (0x48B, 27, 2, 0x48A);
   (0x4C2, 7, 2, 0x4C1); (0x4CF, 1, 1, 0x4C0); (0x4D1, 48, 2, 0x4D0);
   (0x561, 38, 1, 0x531); (0x13F8, 6, 1, 0x13F0); (0x1C80, 1, 1, 0x412);
   (0x1C81, 1, 1, 0x414); (0x1C82, 1, 1, 0x41E); (0x1C83, 2, 1, 0x421);
   (0x1C85, 1, 1, 0x422); (0x1C86, 1, 1, 0x42A); (0x1C87, 1, 1, 0x462);
   (0x1C88, 1, 1, 0xA64A); (0x1D79, 1, 1, 0xA77D); (0x1D7D, 1, 1, 0x2C63);
   (0x1D8E, 1, 1, 0xA7C6); (0x1E01, 75, 2, 0x1E00); (0x1E9B, 1, 1, 0x1E60);
   (0x1EA1, 48, 2, 0x1EA0); (0x1F00, 8, 1, 0x1F08); (0x1F10, 6, 1, 0x1F18);
   (0x1F20, 8, 1, 0x1F28); (0x1F30, 8, 1, 0x1F38); (0x1F40, 6, 1, 0x1F48);
   (0x1F51, 4, 2, 0x1F59); (0x1F60, 8, 1, 0x1F68); (0x1F70, 2, 1, 0x1FBA);
   (0x1F72, 4, 1, 0x1FC8); (0x1F76, 2, 1, 0x1FDA); (0x1F78, 2, 1, 0x1FF8);
   (0x1F7A, 2, 1, 0x1FEA); (0x1F7C, 2, 1, 0x1FFA); (0x1F80, 8, 1, 0x1F88);
   (0x1F90, 8, 1, 0x1F98); (0x1FA0, 8, 1, 0x1FA8); (0x1FB0, 2, 1, 0x1FB8);
   (0x1FB3, 1, 1, 0x1FBC); (0x1FBE, 1, 1, 0x399); (0x1FC3, 1, 1, 0x1FCC);
   (0x1FD0, 2, 1, 0x1FD8); (0x1FE0, 2, 1, 0x1FE8); (0x1FE5, 1, 1, 0x1FEC);
   (0x1FF3, 1, 1, 0x1FFC); (0x214E, 1, 1, 0x2132); (0x2170, 16, 1, 0x2160);
   (0x2184, 1, 1, 0x2183); (0x24D0, 26, 1, 0x24B6); (0x2C30, 48, 1, 0x2C00);
   (0x2C61, 1, 1, 0x2C60); (0x2C65, 1, 1, 0x23A); (0x2C66, 1, 1, 0x23E);
   (0x2C68, 3, 2, 0x2C67); (0x2C73, 1, 1, 0x2C72); (0x2C76, 1, 1, 0x2C75);
   (0x2C81, 50, 2, 0x2C80); (0x2CEC, 2, 2, 0x2CEB); (0x2CF3, 1, 1, 0x2CF2);
   (0x2D00, 38, 1, 0x10A0); (0x2D27, 1, 1, 0x10C7); (0x2D2D, 1, 1, 0x10CD);
   (0xA641, 23, 2, 0xA640); (0xA681, 14, 2, 0xA680); (0xA723, 7, 2, 0xA722);
   (0xA733, 31, 2, 0xA732); (0xA77A, 2, 2, 0xA779); (0xA77F, 5, 2, 0xA77E);
   (0xA78C, 1, 1, 0xA78B); (0xA791, 2, 2, 0xA790); (0xA794, 1, 1, 0xA7C4);
   (0xA797, 10, 2, 0xA796); (0xA7B5, 8, 2, 0xA7B4); (0xA7C8, 2, 2, 0xA7C7);
   (0xA7D1, 1, 1, 0xA7D0); (0xA7D7, 2, 2, 0xA7D6); (0xA7F6, 1, 1, 0xA7F5);
   (0xAB53, 1, 1, 0xA7B3); (0xAB70, 80, 1, 0x13A0); (0xFF41, 26, 1, 0xFF21);
   (0x10428, 40, 1, 0x10400); (0x104D8, 36, 1, 0x104B0); (0x10597, 11, 1, 0x10570);
   (0x105A3, 15, 1, 0x1057C); (0x105B3, 7, 1, 0x1058C); (0x105BB, 2, 1, 0x10594);
   (0x10CC0, 51, 1, 0x10C80); (0x118C0, 32, 1, 0x118A0); (0x16E60, 32, 1, 0x16E40);
   (0x1E922, 34, 1, 0x1E900)]%list.

(** The characters with a title-case mapping of several characters. *)
Definition title_special : list (N * list N) :=
  [(0xDF, [0x53; 0x73]%list); (0x149, [0x2BC; 0x4E]%list);
   (0x1F0, [0x4A; 0x30C]%list); (0x390, [0x399; 0x308; 0x301]%list);
   (0x3B0, [0x3A5; 0x308; 0x301]%list); (0x587, [0x535; 0x582]%list);
   (0x1E96, [0x48; 0x331]%list); (0x1E97, [0x54; 0x308]%list);
   (0x1E98, [0x57; 0x30A]%list); (0x1E99, [0x59; 0x30A]%list);
   (0x1E9A, [0x41; 0x2BE]%list); (0x1F50, [0x3A5; 0x313]%list);
   (0x1F52, [0x3A5; 0x313; 0x300]%list); (0x1F54, [0x3A5; 0x313; 0x301]%list);
   (0x1F56, [0x3A5; 0x313; 0x342]%list); (0x1FB2, [0x1FBA; 0x345]%list);
   (0x1FB4, [0x386; 0x345]%list); (0x1FB6, [0x391; 0x342]%list);
   (0x1FB7, [0x391; 0x342; 0x345]%list); (0x1FC2, [0x1FCA; 0x345]%list);
   (0x1FC4, [0x389; 0x345]%list); (0x1FC6, [0x397; 0x342]%list);
   (0x1FC7, [0x397; 0x342; 0x345]%list); (0x1FD2, [0x399; 0x308; 0x300]%list);
   (0x1FD3, [0x399; 0x308; 0x301]%list); (0x1FD6, [0x399; 0x342]%list);
   (0x1FD7, [0x399; 0x308; 0x342]%list); (0x1FE2, [0x3A5; 0x308; 0x300]%list);
   (0x1FE3, [0x3A5; 0x308; 0x301]%list); (0x1FE4, [0x3A1; 0x313]%list);
   (0x1FE6, [0x3A5; 0x342]%list); (0x1FE7, [0x3A5; 0x308; 0x342]%list);
   (0x1FF2, [0x1FFA; 0x345]%list); (0x1FF4, [0x38F; 0x345]%list);
   (0x1FF6, [0x3A9; 0x342]%list); (0x1FF7, [0x3A9; 0x342; 0x345]%list);
   (0xFB00, [0x46; 0x66]%list); (0xFB01, [0x46; 0x69]%list);
   (0xFB02, [0x46; 0x6C]%list); (0xFB03, [0x46; 0x66; 0x69]%list);
   (0xFB04, [0x46; 0x66; 0x6C]%list); (0xFB05, [0x53; 0x74]%list);
   (0xFB06, [0x53; 0x74]%list); (0xFB13, [0x544; 0x576]%list);
   (0xFB14, [0x544; 0x565]%list); (0xFB15, [0x544; 0x56B]%list);
   (0xFB16, [0x54E; 0x576]%list); (0xFB17, [0x544; 0x56D]%list)]%list.

(** The characters with the property Cased. *)
Definition cased_ranges : list (N * N) :=
  [(0x41, 0x5A); (0x61, 0x7A); (0xAA, 0xAA); (0xB5, 0xB5); (0xBA, 0xBA);
   (0xC0, 0xD6); (0xD8, 0xF6); (0xF8, 0x1BA); (0x1BC, 0x1BF); (0x1C4, 0x293);
   (0x295, 0x2B8); (0x2C0, 0x2C1); (0x2E0, 0x2E4); (0x345, 0x345); (0x370, 0x373);
   (0x376, 0x377); (0x37A, 0x37D); (0x37F, 0x37F); (0x386, 0x386); (0x388, 0x38A);
   (0x38C, 0x38C); (0x38E, 0x3A1); (0x3A3, 0x3F5); (0x3F7, 0x481); (0x48A, 0x52F);
   (0x531, 0x556); (0x560, 0x588); (0x10A0, 0x10C5); (0x10C7, 0x10C7); (0x10CD, 0x10CD);
   (0x10D0, 0x10FA); (0x10FD, 0x10FF); (0x13A0, 0x13F5); (0x13F8, 0x13FD); (0x1C80, 0x1C88);
   (0x1C90, 0x1CBA); (0x1CBD, 0x1CBF); (0x1D00, 0x1DBF); (0x1E00, 0x1F15); (0x1F18, 0x1F1D);
   (0x1F20, 0x1F45); (0x1F48, 0x1F4D); (0x1F50, 0x1F57); (0x1F59, 0x1F59); (0x1F5B, 0x1F5B);
   (0x1F5D, 0x1F5D); (0x1F5F, 0x1F7D); (0x1F80, 0x1FB4); (0x1FB6, 0x1FBC); (0x1FBE, 0x1FBE);
   (0x1FC2, 0x1FC4); (0x1FC6, 0x1FCC); (0x1FD0, 0x1FD3); (0x1FD6, 0x1FDB); (0x1FE0, 0x1FEC);
   (0x1FF2, 0x1FF4); (0x1FF6, 0x1FFC); (0x2071, 0x2071); (0x207F, 0x207F); (0x2090, 0x209C);
   (0x2102, 0x2102); (0x2107, 0x2107); (0x210A, 0x2113); (0x2115, 0x2115); (0x2119, 0x211D);
   (0x2124, 0x2124); (0x2126, 0x2126); (0x2128, 0x2128); (0x212A, 0x212D); (0x212F, 0x2134);
   (0x2139, 0x2139); (0x213C, 0x213F); (0x2145, 0x2149); (0x214E, 0x214E); (0x2160, 0x217F);
   (0x2183, 0x2184); (0x24B6, 0x24E9); (0x2C00, 0x2CE4); (0x2CEB, 0x2CEE); (0x2CF2, 0x2CF3);
   (0x2D00, 0x2D25); (0x2D27, 0x2D27); (0x2D2D, 0x2D2D); (0xA640, 0xA66D); (0xA680, 0xA69D);
   (0xA722, 0xA787); (0xA78B, 0xA78E); (0xA790, 0xA7CA); (0xA7D0, 0xA7D1); (0xA7D3, 0xA7D3);
   (0xA7D5, 0xA7D9); (0xA7F5, 0xA7F6); (0xA7F8, 0xA7FA); (0xAB30, 0xAB5A); (0xAB5C, 0xAB68);
   (0xAB70, 0xABBF); (0xFB00, 0xFB06); (0xFB13, 0xFB17); (0xFF21, 0xFF3A); (0xFF41, 0xFF5A);
   (0x10400, 0x1044F); (0x104B0, 0x104D3); (0x104D8, 0x104FB); (0x10570, 0x1057A); (0x1057C, 0x1058A);
   (0x1058C, 0x10592); (0x10594, 0x10595); (0x10597, 0x105A1); (0x105A3, 0x105B1); (0x105B3, 0x105B9);
   (0x105BB, 0x105BC); (0x10780, 0x10780); (0x10783, 0x10785); (0x10787, 0x107B0); (0x107B2, 0x107BA);
   (0x10C80, 0x10CB2); (0x10CC0, 0x10CF2); (0x118A0, 0x118DF); (0x16E40, 0x16E7F); (0x1D400, 0x1D454);
   (0x1D456, 0x1D49C); (0x1D49E, 0x1D49F); (0x1D4A2, 0x1D4A2); (0x1D4A5, 0x1D4A6); (0x1D4A9, 0x1D4AC);
   (0x1D4AE, 0x1D4B9); (0x1D4BB, 0x1D4BB); (0x1D4BD, 0x1D4C3); (0x1D4C5, 0x1D505); (0x1D507, 0x1D50A);
   (0x1D50D, 0x1D514); (0x1D516, 0x1D51C); (0x1D51E, 0x1D539); (0x1D53B, 0x1D53E); (0x1D540, 0x1D544);
   (0x1D546, 0x1D546); (0x1D54A, 0x1D550); (0x1D552, 0x1D6A5); (0x1D6A8, 0x1D6C0); (0x1D6C2, 0x1D6DA);
   (0x1D6DC, 0x1D6FA); (0x1D6FC, 0x1D714); (0x1D716, 0x1D734); (0x1D736, 0x1D74E); (0x1D750, 0x1D76E);
   (0x1D770, 0x1D788); (0x1D78A, 0x1D7A8); (0x1D7AA, 0x1D7C2); (0x1D7C4, 0x1D7CB); (0x1DF00, 0x1DF09);
   (0x1DF0B, 0x1DF1E); (0x1E900, 0x1E943); (0x1F130, 0x1F149); (0x1F150, 0x1F169); (0x1F170, 0x1F189)]%list.

(** The characters with the property Case_Ignorable. *)
Definition case_ignorable_ranges : list (N * N) :=
  [(0x27, 0x27); (0x2E, 0x2E); (0x3A, 0x3A); (0x5E, 0x5E); (0x60, 0x60);
   (0xA8, 0xA8); (0xAD, 0xAD); (0xAF, 0xAF); (0xB4, 0xB4); (0xB7, 0xB8);
   (0x2B0, 0x36F); (0x374, 0x375); (0x37A, 0x37A); (0x384, 0x385); (0x387, 0x387);
   (0x483, 0x489); (0x559, 0x559); (0x55F, 0x55F); (0x591, 0x5BD); (0x5BF, 0x5BF);
   (0x5C1, 0x5C2); (0x5C4, 0x5C5); (0x5C7, 0x5C7); (0x5F4, 0x5F4); (0x600, 0x605);
   (0x610, 0x61A); (0x61C, 0x61C); (0x640, 0x640); (0x64B, 0x65F); (0x670, 0x670);
   (0x6D6, 0x6DD); (0x6DF, 0x6E8); (0x6EA, 0x6ED); (0x70F, 0x70F); (0x711, 0x711);
   (0x730, 0x74A); (0x7A6, 0x7B0); (0x7EB, 0x7F5); (0x7FA, 0x7FA); (0x7FD, 0x7FD);
   (0x816, 0x82D); (0x859, 0x85B); (0x888, 0x888); (0x890, 0x891); (0x898, 0x89F);
   (0x8C9, 0x902); (0x93A, 0x93A); (0x93C, 0x93C); (0x941, 0x948); (0x94D, 0x94D);
   (0x951, 0x957); (0x962, 0x963); (0x971, 0x971); (0x981, 0x981); (0x9BC, 0x9BC);
   (0x9C1, 0x9C4); (0x9CD, 0x9CD); (0x9E2, 0x9E3); (0x9FE, 0x9FE); (0xA01, 0xA02);
   (0xA3C, 0xA3C); (0xA41, 0xA42); (0xA47, 0xA48); (0xA4B, 0xA4D); (0xA51, 0xA51);
   (0xA70, 0xA71); (0xA75, 0xA75); (0xA81, 0xA82); (0xABC, 0xABC); (0xAC1, 0xAC5);
   (0xAC7, 0xAC8); (0xACD, 0xACD); (0xAE2, 0xAE3); (0xAFA, 0xAFF); (0xB01, 0xB01);
   (0xB3C, 0xB3C); (0xB3F, 0xB3F); (0xB41, 0xB44); (0xB4D, 0xB4D); (0xB55, 0xB56);
   (0xB62, 0xB63); (0xB82, 0xB82); (0xBC0, 0xBC0); (0xBCD, 0xBCD); (0xC00, 0xC00);
   (0xC04, 0xC04); (0xC3C, 0xC3C); (0xC3E, 0xC40); (0xC46, 0xC48); (0xC4A, 0xC4D);
   (0xC55, 0xC56); (0xC62, 0xC63); (0xC81, 0xC81); (0xCBC, 0xCBC); (0xCBF, 0xCBF);
   (0xCC6, 0xCC6); (0xCCC, 0xCCD); (0xCE2, 0xCE3); (0xD00, 0xD01); (0xD3B, 0xD3C);
   (0xD41, 0xD44); (0xD4D, 0xD4D); (0xD62, 0xD63); (0xD81, 0xD81); (0xDCA, 0xDCA);
   (0xDD2, 0xDD4); (0xDD6, 0xDD6); (0xE31, 0xE31); (0xE34, 0xE3A); (0xE46, 0xE4E);
   (0xEB1, 0xEB1); (0xEB4, 0xEBC); (0xEC6, 0xEC6); (0xEC8, 0xECD); (0xF18, 0xF19);
   (0xF35, 0xF35); (0xF37, 0xF37); (0xF39, 0xF39); (0xF71, 0xF7E); (0xF80, 0xF84);
   (0xF86, 0xF87); (0xF8D, 0xF97); (0xF99, 0xFBC); (0xFC6, 0xFC6); (0x102D, 0x1030);
   (0x1032, 0x1037); (0x1039, 0x103A); (0x103D, 0x103E); (0x1058, 0x1059); (0x105E, 0x1060);
   (0x1071, 0x1074); (0x1082, 0x1082); (0x1085, 0x1086); (0x108D, 0x108D); (0x109D, 0x109D);
   (0x10FC, 0x10FC); (0x135D, 0x135F); (0x1712, 0x1714); (0x1732, 0x1733); (0x1752, 0x1753);
   (0x1772, 0x1773); (0x17B4, 0x17B5); (0x17B7, 0x17BD); (0x17C6, 0x17C6); (0x17C9, 0x17D3);
   (0x17D7, 0x17D7); (0x17DD, 0x17DD); (0x180B, 0x180F); (0x1843, 0x1843); (0x1885, 0x1886);
   (0x18A9, 0x18A9); (0x1920, 0x1922); (0x1927, 0x1928); (0x1932, 0x1932); (0x1939, 0x193B);
   (0x1A17, 0x1A18); (0x1A1B, 0x1A1B); (0x1A56, 0x1A56); (0x1A58, 0x1A5E); (0x1A60, 0x1A60);
   (0x1A62, 0x1A62); (0x1A65, 0x1A6C); (0x1A73, 0x1A7C); (0x1A7F, 0x1A7F); (0x1AA7, 0x1AA7);
   (0x1AB0, 0x1ACE); (0x1B00, 0x1B03); (0x1B34, 0x1B34); (0x1B36, 0x1B3A); (0x1B3C, 0x1B3C);
   (0x1B42, 0x1B42); (0x1B6B, 0x1B73); (0x1B80, 0x1B81); (0x1BA2, 0x1BA5); (0x1BA8, 0x1BA9);
   (0x1BAB, 0x1BAD); (0x1BE6, 0x1BE6); (0x1BE8, 0x1BE9); (0x1BED, 0x1BED); (0x1BEF, 0x1BF1);
   (0x1C2C, 0x1C33); (0x1C36, 0x1C37); (0x1C78, 0x1C7D); (0x1CD0, 0x1CD2); (0x1CD4, 0x1CE0);
   (0x1CE2, 0x1CE8); (0x1CED, 0x1CED); (0x1CF4, 0x1CF4); (0x1CF8, 0x1CF9); (0x1D2C, 0x1D6A);
   (0x1D78, 0x1D78); (0x1D9B, 0x1DFF); (0x1FBD, 0x1FBD); (0x1FBF, 0x1FC1); (0x1FCD, 0x1FCF);
   (0x1FDD, 0x1FDF); (0x1FED, 0x1FEF); (0x1FFD, 0x1FFE); (0x200B, 0x200F); (0x2018, 0x2019);
   (0x2024, 0x2024); (0x2027, 0x2027); (0x202A, 0x202E); (0x2060, 0x2064); (0x2066, 0x206F);
   (0x2071, 0x2071); (0x207F, 0x207F); (0x2090, 0x209C); (0x20D0, 0x20F0); (0x2C7C, 0x2C7D);
   (0x2CEF, 0x2CF1); (0x2D6F, 0x2D6F); (0x2D7F, 0x2D7F); (0x2DE0, 0x2DFF); (0x2E2F, 0x2E2F);
   (0x3005, 0x3005); (0x302A, 0x302D); (0x3031, 0x3035); (0x303B, 0x303B); (0x3099, 0x309E);
   (0x30FC, 0x30FE); (0xA015, 0xA015); (0xA4F8, 0xA4FD); (0xA60C, 0xA60C); (0xA66F, 0xA672);
   (0xA674, 0xA67D); (0xA67F, 0xA67F); (0xA69C, 0xA69F); (0xA6F0, 0xA6F1); (0xA700, 0xA721);
   (0xA770, 0xA770); (0xA788, 0xA78A); (0xA7F2, 0xA7F4); (0xA7F8, 0xA7F9); (0xA802, 0xA802);
   (0xA806, 0xA806); (0xA80B, 0xA80B); (0xA825, 0xA826); (0xA82C, 0xA82C); (0xA8C4, 0xA8C5);
   (0xA8E0, 0xA8F1); (0xA8FF, 0xA8FF); (0xA926, 0xA92D); (0xA947, 0xA951); (0xA980, 0xA982);
   (0xA9B3, 0xA9B3); (0xA9B6, 0xA9B9); (0xA9BC, 0xA9BD); (0xA9CF, 0xA9CF); (0xA9E5, 0xA9E6);
   (0xAA29, 0xAA2E); (0xAA31, 0xAA32); (0xAA35, 0xAA36); (0xAA43, 0xAA43); (0xAA4C, 0xAA4C);
   (0xAA70, 0xAA70); (0xAA7C, 0xAA7C); (0xAAB0, 0xAAB0); (0xAAB2, 0xAAB4); (0xAAB7, 0xAAB8);
   (0xAABE, 0xAABF); (0xAAC1, 0xAAC1); (0xAADD, 0xAADD); (0xAAEC, 0xAAED); (0xAAF3, 0xAAF4);
   (0xAAF6, 0xAAF6); (0xAB5B, 0xAB5F); (0xAB69, 0xAB6B); (0xABE5, 0xABE5); (0xABE8, 0xABE8);
   (0xABED, 0xABED); (0xFB1E, 0xFB1E); (0xFBB2, 0xFBC2); (0xFE00, 0xFE0F); (0xFE13, 0xFE13);
   (0xFE20, 0xFE2F); (0xFE52, 0xFE52); (0xFE55, 0xFE55); (0xFEFF, 0xFEFF); (0xFF07, 0xFF07);
   (0xFF0E, 0xFF0E); (0xFF1A, 0xFF1A); (0xFF3E, 0xFF3E); (0xFF40, 0xFF40); (0xFF70, 0xFF70);
   (0xFF9E, 0xFF9F); (0xFFE3, 0xFFE3); (0xFFF9, 0xFFFB); (0x101FD, 0x101FD); (0x102E0, 0x102E0);
   (0x10376, 0x1037A); (0x10780, 0x10785); (0x10787, 0x107B0); (0x107B2, 0x107BA); (0x10A01, 0x10A03);
   (0x10A05, 0x10A06); (0x10A0C, 0x10A0F); (0x10A38, 0x10A3A); (0x10A3F, 0x10A3F); (0x10AE5, 0x10AE6);
   (0x10D24, 0x10D27); (0x10EAB, 0x10EAC); (0x10F46, 0x10F50); (0x10F82, 0x10F85); (0x11001, 0x11001);
   (0x11038, 0x11046); (0x11070, 0x11070); (0x11073, 0x11074); (0x1107F, 0x11081); (0x110B3, 0x110B6);
   (0x110B9, 0x110BA); (0x110BD, 0x110BD); (0x110C2, 0x110C2); (0x110CD, 0x110CD); (0x11100, 0x11102);
   (0x11127, 0x1112B); (0x1112D, 0x11134); (0x11173, 0x11173); (0x11180, 0x11181); (0x111B6, 0x111BE);
   (0x111C9, 0x111CC); (0x111CF, 0x111CF); (0x1122F, 0x11231); (0x11234, 0x11234); (0x11236, 0x11237);
   (0x1123E, 0x1123E); (0x112DF, 0x112DF); (0x112E3, 0x112EA); (0x11300, 0x11301); (0x1133B, 0x1133C);
   (0x11340, 0x11340); (0x11366, 0x1136C); (0x11370, 0x11374); (0x11438, 0x1143F); (0x11442, 0x11444);
   (0x11446, 0x11446); (0x1145E, 0x1145E); (0x114B3, 0x114B8); (0x114BA, 0x114BA); (0x114BF, 0x114C0);
   (0x114C2, 0x114C3); (0x115B2, 0x115B5); (0x115BC, 0x115BD); (0x115BF, 0x115C0); (0x115DC, 0x115DD);
   (0x11633, 0x1163A); (0x1163D, 0x1163D); (0x1163F, 0x11640); (0x116AB, 0x116AB); (0x116AD, 0x116AD);
   (0x116B0, 0x116B5); (0x116B7, 0x116B7); (0x1171D, 0x1171F); (0x11722, 0x11725); (0x11727, 0x1172B);
   (0x1182F, 0x11837); (0x11839, 0x1183A); (0x1193B, 0x1193C); (0x1193E, 0x1193E); (0x11943, 0x11943);
   (0x119D4, 0x119D7); (0x119DA, 0x119DB); (0x119E0, 0x119E0); (0x11A01, 0x11A0A); (0x11A33, 0x11A38);
   (0x11A3B, 0x11A3E); (0x11A47, 0x11A47); (0x11A51, 0x11A56); (0x11A59, 0x11A5B); (0x11A8A, 0x11A96);
   (0x11A98, 0x11A99); (0x11C30, 0x11C36); (0x11C38, 0x11C3D); (0x11C3F, 0x11C3F); (0x11C92, 0x11CA7);
   (0x11CAA, 0x11CB0); (0x11CB2, 0x11CB3); (0x11CB5, 0x11CB6); (0x11D31, 0x11D36); (0x11D3A, 0x11D3A);
   (0x11D3C, 0x11D3D); (0x11D3F, 0x11D45); (0x11D47, 0x11D47); (0x11D90, 0x11D91); (0x11D95, 0x11D95);
   (0x11D97, 0x11D97); (0x11EF3, 0x11EF4); (0x13430, 0x13438); (0x16AF0, 0x16AF4); (0x16B30, 0x16B36);
   (0x16B40, 0x16B43); (0x16F4F, 0x16F4F); (0x16F8F, 0x16F9F); (0x16FE0, 0x16FE1); (0x16FE3, 0x16FE4);
   (0x1AFF0, 0x1AFF3); (0x1AFF5, 0x1AFFB); (0x1AFFD, 0x1AFFE); (0x1BC9D, 0x1BC9E); (0x1BCA0, 0x1BCA3);
   (0x1CF00, 0x1CF2D); (0x1CF30, 0x1CF46); (0x1D167, 0x1D169); (0x1D173, 0x1D182); (0x1D185, 0x1D18B);
   (0x1D1AA, 0x1D1AD); (0x1D242, 0x1D244); (0x1DA00, 0x1DA36); (0x1DA3B, 0x1DA6C); (0x1DA75, 0x1DA75);
   (0x1DA84, 0x1DA84); (0x1DA9B, 0x1DA9F); (0x1DAA1, 0x1DAAF); (0x1E000, 0x1E006); (0x1E008, 0x1E018);
   (0x1E01B, 0x1E021); (0x1E023, 0x1E024); (0x1E026, 0x1E02A); (0x1E130, 0x1E13D); (0x1E2AE, 0x1E2AE);
   (0x1E2EC, 0x1E2EF); (0x1E8D0, 0x1E8D6); (0x1E944, 0x1E94B); (0x1F3FB, 0x1F3FF); (0xE0001, 0xE0001);
   (0xE0020, 0xE007F); (0xE0100, 0xE01EF)]%list.

(** The full lower-case mapping and the full title-case mapping of a
    character; a character without a mapping is its own image. *)
Definition to_lower_full (c : N) : list N :=
  match special_image c lower_special with
  | Some image => image
  | None =>
      match runs_image c lower_runs with
      | Some n => (n :: nil)%list
      | None => (c :: nil)%list
      end
  end.

Definition to_title_full (c : N) : list N :=
  match special_image c title_special with
  | Some image => image
  | None =>
      match runs_image c title_runs with
      | Some n => (n :: nil)%list
      | None => (c :: nil)%list
      end
  end.

Definition is_cased (c : N) : bool := in_ranges c cased_ranges.

Definition is_case_ignorable (c : N) : bool := in_ranges c case_ignorable_ranges.

Definition capital_sigma : N := 0x3A3.
Definition small_sigma : N := 0x3C3.
Definition small_final_sigma : N := 0x3C2.

End Unicode.

(** ** Python values and exceptions *)

Module Py.

(** What [response.json()] returns and what [jsonify] accepts.  A [str] is
    held as its UTF-8 encoding, so that a literal of [app.py] and the same
    literal here are the same bytes; a [float] is an IEEE binary64 number. *)
#[warnings="-register-all"]
Inductive value :=
| VNone
| VBool (b : bool)
| VInt (z : Z)
| VFloat (f : spec_float)
| VStr (s : string)
| VList (l : list value)
| VDict (m : gmap string value).

Inductive pytype := TNoneType | TBool | TInt | TFloat | TStr | TList | TDict.

Definition type_of (v : value) : pytype :=
  match v with
  | VNone => TNoneType
  | VBool _ => TBool
  | VInt _ => TInt
  | VFloat _ => TFloat
  | VStr _ => TStr
  | VList _ => TList
  | VDict _ => TDict
  end.

(** Subscript keys used by the handlers: a string key or a list index. *)
Inductive key := KStr (s : string) | KIdx (i : Z).

(** Errors raised by the interpreter itself.  All of them are [Exception]
    subclasses other than [KeyError] and [RequestException], except that
    slicing a dict is a [TypeError] before CPython 3.12 and a [KeyError]
    from 3.12 on; the only slice in [app.py] sits under a bare
    [except Exception], where the class is not inspected. *)
Inductive builtin_error :=
| NotSubscriptable (t : pytype)
| BadIndexType (t : pytype) (k : key)
| IndexOutOfRange (t : pytype)
| NoAttribute (t : pytype) (attr : string)
| NoRound (t : pytype)
| BadOperand (op : string) (t1 t2 : pytype)
| ZeroDivision (of_floats : bool)
| IntTooLargeForFloat
| DivisionResultTooLarge
| Unhashable (t : pytype)
| BadSlice (t : pytype)
| NotIterable (t : pytype).

(** The exception classes that the [except] clauses of [app.py] tell apart. *)
Inductive exn :=
| RequestException (msg : string)
| KeyError (k : key)
| Builtin (e : builtin_error)
| OtherException (msg : string).

Inductive result (A : Type) :=
| Ok (a : A)
| Err (e : exn).
Arguments Ok {A} a.
Arguments Err {A} e.

#[global] Instance result_ret : MRet result := λ A a, Ok a.
#[global] Instance result_bind : MBind result := λ A B f m,
  match m with
  | Ok a => f a
  | Err e => Err e
  end.
#[global] Instance result_fmap : FMap result := λ A B f m,
  match m with
  | Ok a => Ok (f a)
  | Err e => Err e
  end.

(** [repr] of a subscript key, as [str(KeyError(k))] prints it.  The string
    keys of [app.py] are plain identifiers, which [repr] only wraps in
    single quotes. *)
Definition key_repr (k : key) : string :=
  match k with
  | KStr s => "'" +:+ s +:+ "'"
  | KIdx i => pretty i
  end.

(** [str(e)], given the interpreter's wording of its own errors. *)
Definition str_exn (wording : builtin_error → string) (e : exn) : string :=
  match e with
  | RequestException msg => msg
  | KeyError k => key_repr k
  | Builtin b => wording b
  | OtherException msg => msg
  end.

(** *** Strings *)

(** A byte [10xxxxxx] continues the character started before it. *)
Definition is_continuation (c : ascii) : bool :=
  (128 <=? nat_of_ascii c)%nat && (nat_of_ascii c <? 192)%nat.

(** The characters of a [str], each as a one-character [str]. *)
Fixpoint str_chars (s : string) : list string :=
  match s with
  | EmptyString => []
  | String c r =>
      let cs := str_chars r in
      let continued :=
        match r with
        | String d _ => is_continuation d
        | EmptyString => false
        end in
      match cs with
      | x :: xs => if continued then String c x :: xs else String c EmptyString :: cs
      | [] => [String c EmptyString]
      end
  end.

(** [len(s)] counts characters, not bytes. *)
Definition len (s : string) : nat := length (str_chars s).

(** Bytes and letters of the ASCII range. *)
Definition is_ascii (c : ascii) : bool := (nat_of_ascii c <? 128)%nat.

Definition is_upper (c : ascii) : bool :=
  (65 <=? nat_of_ascii c)%nat && (nat_of_ascii c <=? 90)%nat.

Definition is_lower (c : ascii) : bool :=
  (97 <=? nat_of_ascii c)%nat && (nat_of_ascii c <=? 122)%nat.

Definition to_upper (c : ascii) : ascii :=
  if is_lower c then ascii_of_nat (nat_of_ascii c - 32) else c.

Definition to_lower (c : ascii) : ascii :=
  if is_upper c then ascii_of_nat (nat_of_ascii c + 32) else c.

Fixpoint str_map (f : ascii → ascii) (s : string) : string :=
  match s with
  | EmptyString => EmptyString
  | String c r => String (f c) (str_map f r)
  end.

Fixpoint str_forallb (p : ascii → bool) (s : string) : bool :=
  match s with
  | EmptyString => true
  | String c r => p c && str_forallb p r
  end.

(** *** Characters as code points *)

Definition is_continuation_byte (b : N) : bool := ((0x80 <=? b) && (b <? 0xC0))%N.

(** The code point of one character held as its UTF-8 bytes; [None] for
    bytes that are not the encoding of one character. *)
Definition decode_char (c : string) : option N :=
  match N_of_ascii <$> list_ascii_of_string c with
  | [b0] => if (b0 <? 0x80)%N then Some b0 else None
  | [b0; b1] =>
      if ((0xC0 <=? b0) && (b0 <? 0xE0))%N && is_continuation_byte b1
      then Some (N.lor (N.shiftl (N.land b0 0x1F) 6) (N.land b1 0x3F))
      else None
  | [b0; b1; b2] =>
      if ((0xE0 <=? b0) && (b0 <? 0xF0))%N && is_continuation_byte b1 && is_continuation_byte b2
      then Some (N.lor (N.shiftl (N.land b0 0x0F) 12)
                   (N.lor (N.shiftl (N.land b1 0x3F) 6) (N.land b2 0x3F)))
      else None
  | [b0; b1; b2; b3] =>
      if ((0xF0 <=? b0) && (b0 <? 0xF8))%N && is_continuation_byte b1 && is_continuation_byte b2
         && is_continuation_byte b3
      then Some (N.lor (N.shiftl (N.land b0 0x07) 18)
                   (N.lor (N.shiftl (N.land b1 0x3F) 12)
                      (N.lor (N.shiftl (N.land b2 0x3F) 6) (N.land b3 0x3F))))
      else None
  | _ => None
  end.

(** The UTF-8 bytes of a code point. *)
Definition encode_point (n : N) : string :=
  let trail (shift : N) : ascii :=
    ascii_of_N (N.lor 0x80 (N.land (N.shiftr n shift) 0x3F)) in
  if (n <? 0x80)%N then String (ascii_of_N n) ""
  else if (n <? 0x800)%N then
    String (ascii_of_N (N.lor 0xC0 (N.shiftr n 6))) (String (trail 0%N) "")
  else if (n <? 0x10000)%N then
    String (ascii_of_N (N.lor 0xE0 (N.shiftr n 12)))
      (String (trail 6%N) (String (trail 0%N) ""))
  else
    String (ascii_of_N (N.lor 0xF0 (N.shiftr n 18)))
      (String (trail 12%N) (String (trail 6%N) (String (trail 0%N) ""))).

Definition encode_points (ns : list N) : string :=
  String.concat "" (encode_point <$> ns).

(** A property of the code point of a character; bytes that are no character
    have none. *)
Definition char_has (property : N → bool) (c : string) : bool :=
  match decode_char c with
  | Some n => property n
  | None => false
  end.

(** *** [str.capitalize()] *)

(** Whether the capital sigma at position [i] of [chars] is in final
    position: a cased character comes before it, case-ignorable characters
    aside, and none comes after it. *)
Definition final_sigma (chars : list string) (i : nat) : bool :=
  let significant c := negb (char_has Unicode.is_case_ignorable c) in
  match find significant (reverse (take i chars)) with
  | Some before =>
      char_has Unicode.is_cased before &&
      match find significant (drop (S i) chars) with
      | Some after => negb (char_has Unicode.is_cased after)
      | None => true
      end
  | None => false
  end.

(** The title case of a character. *)
Definition title_char (c : string) : string :=
  match decode_char c with
  | Some n => encode_points (Unicode.to_title_full n)
  | None => c
  end.

(** The lower case of the character [c] at position [i] of [chars]. *)
Definition lower_char_at (chars : list string) (i : nat) (c : string) : string :=
  match decode_char c with
  | Some n =>
      if (n =? Unicode.capital_sigma)%N then
        encode_point (if final_sigma chars i then Unicode.small_final_sigma
                      else Unicode.small_sigma)
      else encode_points (Unicode.to_lower_full n)
  | None => c
  end.

(** The characters after the first, as they are and in lower case. *)
Definition rest_text (chars : list string) : string :=
  String.concat "" (tail chars).

Definition rest_lowered (chars : list string) : string :=
  String.concat "" (imap (λ i, lower_char_at chars (S i)) (tail chars)).

(** [str.capitalize()]: the first character in title case and every other
    character in lower case, by the full case mappings of the Unicode
    character database. *)
Definition capitalize (s : string) : string :=
  match str_chars s with
  | [] => ""
  | (c :: _) as chars => title_char c +:+ rest_lowered chars
  end.

(** *** Truth value, as tested by [if x:] and [not x]. *)
Definition truthy (v : value) : bool :=
  match v with
  | VNone => false
  | VBool b => b
  | VInt z => negb (z =? 0)%Z
  | VFloat (S754_zero _) => false
  | VFloat _ => true
  | VStr s => negb (String.eqb s "")
  | VList l => negb (bool_decide (l = []))
  | VDict m => negb (bool_decide (m = ∅))
  end.

(** *** Numbers *)

(** Binary64: 53 bits of precision, infinities at exponent 1024. *)
Definition prec : Z := 53.
Definition emax : Z := 1024.

Definition is_zero (f : spec_float) : bool :=
  match f with
  | S754_zero _ => true
  | _ => false
  end.

(** An [int] as an exact (unrounded) dyadic number. *)
Definition exact_of_int (z : Z) : spec_float :=
  match z with
  | Z0 => S754_zero false
  | Zpos p => S754_finite false p 0
  | Zneg p => S754_finite true p 0
  end.

(** [float(z)]: the nearest binary64 number, [OverflowError] beyond the range. *)
Definition float_of_int (z : Z) : result spec_float :=
  match binary_normalize prec emax z 0 false with
  | S754_infinity _ => Err (Builtin IntTooLargeForFloat)
  | f => Ok f
  end.

(** [bool] is a subclass of [int]. *)
Definition as_number (v : value) : option (Z + spec_float) :=
  match v with
  | VBool b => Some (inl (Z.b2z b))
  | VInt z => Some (inl z)
  | VFloat f => Some (inr f)
  | _ => None
  end.

Definition to_float (n : Z + spec_float) : result spec_float :=
  match n with
  | inl z => float_of_int z
  | inr f => Ok f
  end.

(** [a / b].  Two ints give the correctly rounded quotient of the integers;
    otherwise both operands are converted to [float] and divided. *)
Definition truediv (a b : value) : result value :=
  match as_number a, as_number b with
  | Some (inl x), Some (inl y) =>
      if (y =? 0)%Z then Err (Builtin (ZeroDivision false))
      else match SFdiv prec emax (exact_of_int x) (exact_of_int y) with
           | S754_infinity _ => Err (Builtin DivisionResultTooLarge)
           | q => Ok (VFloat q)
           end
  | Some x, Some y =>
      fx ← to_float x;
      fy ← to_float y;
      if is_zero fy then Err (Builtin (ZeroDivision true))
      else Ok (VFloat (SFdiv prec emax fx fy))
  | _, _ => Err (Builtin (BadOperand "/" (type_of a) (type_of b)))
  end.

(** The integer nearest to [p / q] for [q > 0], ties going to the even one. *)
Definition nearest_even (p q : Z) : Z :=
  let d := (p / q)%Z in
  match (2 * (p mod q) ?= q)%Z with
  | Lt => d
  | Gt => (d + 1)%Z
  | Eq => if Z.even d then d else (d + 1)%Z
  end.

(** The binary64 number nearest to [n / d] for [d <> 0]; a decimal literal
    such as [14.3] denotes [float_of_ratio 143 10]. *)
Definition float_of_ratio (n d : Z) : spec_float :=
  SFdiv prec emax (exact_of_int n) (exact_of_int d).

(** The number of tenths nearest to [m * 2^e]. *)
Definition tenths (m : positive) (e : Z) : Z :=
  if (0 <=? e)%Z then (10 * Zpos m * 2 ^ e)%Z
  else nearest_even (10 * Zpos m) (2 ^ (- e)).

(** The binary64 number nearest to [n / 10], with the sign [s]. *)
Definition float_of_tenths (s : bool) (n : Z) : spec_float :=
  match n with
  | Zpos p => SFdiv prec emax (S754_finite s p 0) (S754_finite false 10 0)
  | _ => S754_zero s
  end.

(** [round(x, 1)] on a float: NaN and the infinities round to themselves; a
    finite [x] is converted to the nearest decimal with one digit after the
    point (on the exact value of [x], ties to even) and that decimal is read
    back as a float. *)
Definition float_round1 (x : spec_float) : spec_float :=
  match x with
  | S754_finite s m e => float_of_tenths s (tenths m e)
  | _ => x
  end.

(** [round(v, 1)]: an [int] is returned as it is, a [float] is rounded. *)
Definition round1 (v : value) : result value :=
  match v with
  | VBool b => Ok (VInt (Z.b2z b))
  | VInt z => Ok (VInt z)
  | VFloat f => Ok (VFloat (float_round1 f))
  | _ => Err (Builtin (NoRound (type_of v)))
  end.

(** *** Subscripts, methods and iteration *)

(** The position that index [i] denotes in a sequence of length [n]; a
    negative index counts from the end. *)
Definition position (n : nat) (i : Z) : option nat :=
  if (0 <=? i)%Z then Some (Z.to_nat i)
  else if (0 <=? Z.of_nat n + i)%Z then Some (Z.to_nat (Z.of_nat n + i))
  else None.

(** [obj[k]]. *)
Definition subscript (obj : value) (k : key) : result value :=
  match obj, k with
  | VDict m, KStr s =>
      match m !! s with
      | Some v => Ok v
      | None => Err (KeyError k)
      end
  | VDict _, KIdx _ => Err (KeyError k)
  | VList l, KIdx i =>
      match position (length l) i ≫= (l !!.) with
      | Some v => Ok v
      | None => Err (Builtin (IndexOutOfRange TList))
      end
  | VStr s, KIdx i =>
      match position (len s) i ≫= (str_chars s !!.) with
      | Some c => Ok (VStr c)
      | None => Err (Builtin (IndexOutOfRange TStr))
      end
  | VList _, KStr _ | VStr _, KStr _ => Err (Builtin (BadIndexType (type_of obj) k))
  | _, _ => Err (Builtin (NotSubscriptable (type_of obj)))
  end.

(** [obj.get(k, default)]: only a dict has the method. *)
Definition get (obj : value) (k : string) (dflt : value) : result value :=
  match obj with
  | VDict m => Ok (default dflt (m !! k))
  | _ => Err (Builtin (NoAttribute (type_of obj) "get"))
  end.

(** [obj.capitalize()]: only a [str] has the method. *)
Definition capitalize_method (obj : value) : result value :=
  match obj with
  | VStr s => Ok (VStr (capitalize s))
  | _ => Err (Builtin (NoAttribute (type_of obj) "capitalize"))
  end.

(** [obj[:n]]. *)
Definition slice_to (n : nat) (obj : value) : result value :=
  match obj with
  | VList l => Ok (VList (take n l))
  | VStr s => Ok (VStr (String.concat "" (take n (str_chars s))))
  | VDict _ => Err (Builtin (BadSlice TDict))
  | _ => Err (Builtin (NotSubscriptable (type_of obj)))
  end.

(** The items that [for x in obj] goes through.  A dict yields its keys;
    their order is immaterial to the handlers, which fail on the first. *)
Definition iterate (obj : value) : result (list value) :=
  match obj with
  | VList l => Ok l
  | VStr s => Ok (VStr <$> str_chars s)
  | VDict m => Ok (VStr <$> (map_to_list m).*1)
  | _ => Err (Builtin (NotIterable (type_of obj)))
  end.

End Py.

Import Py.

(** ** The [requests] client and the Flask request and response *)

Module Http.

(** A value of the [params] dict of an outbound request. *)
Inductive param := PStr (s : string) | PInt (z : Z).

(** The response object of [requests.get].  [json] is what
    [response.json()] returns or raises on the body received. *)
Record Response := {
  status_code : Z;
  reason : string;
  url : string;
  json : result value
}.

(** [response.raise_for_status()]: an [HTTPError], which is a
    [RequestException], for a status in 400..599 and nothing otherwise. *)
Definition raise_for_status (r : Response) : result unit :=
  if (400 <=? status_code r)%Z && (status_code r <? 500)%Z then
    Err (RequestException
           (pretty (status_code r) +:+ " Client Error: " +:+ reason r +:+ " for url: " +:+ url r))
  else if (500 <=? status_code r)%Z && (status_code r <? 600)%Z then
    Err (RequestException
           (pretty (status_code r) +:+ " Server Error: " +:+ reason r +:+ " for url: " +:+ url r))
  else Ok ().

(** A handler is a computation that may issue outbound GET requests; the
    continuation receives the response or the exception of the call. *)
Inductive prog (A : Type) :=
| Ret (a : A)
| Get (target : string) (params : gmap string param) (k : result Response → prog A).
Arguments Ret {A} a.
Arguments Get {A} target params k.

Fixpoint prog_bind {A B} (f : A → prog B) (m : prog A) : prog B :=
  match m with
  | Ret a => f a
  | Get target params k => Get target params (λ o, prog_bind f (k o))
  end.

#[global] Instance prog_ret : MRet prog := λ A a, Ret a.
#[global] Instance prog_mbind : MBind prog := λ A B f m, prog_bind f m.

(** [requests.get(url, params=params)]. *)
Definition requests_get (target : string) (params : gmap string param) : prog (result Response) :=
  Get target params Ret.

(** The provider, as seen from the handlers, and a handler run against it:
    the value computed and the outbound calls made, in order. *)
Definition provider := string → gmap string param → result Response.

Fixpoint run {A} (p : provider) (m : prog A) : A * list (string * gmap string param) :=
  match m with
  | Ret a => (a, [])
  | Get target params k =>
      let '(a, calls) := run p (k (p target params)) in
      (a, (target, params) :: calls)
  end.

(** [request.args]: the query string as a multi-dict; [get] returns the first
    value given for the key. *)
Definition query_args := list (string * string).

Definition args_get (args : query_args) (k : string) : option string :=
  snd <$> find (λ kv, String.eqb (fst kv) k) args.

(** What a view function returns: a body and a status. *)
Record reply := {
  status : Z;
  body : value
}.

(** [jsonify(v)] is a 200 reply; [jsonify(v), code] sets the status. *)
Definition jsonify (v : value) : reply := {| status := 200; body := v |}.

Definition with_status (r : reply) (code : Z) : reply :=
  {| status := code; body := body r |}.

End Http.

Import Http.

(** ** The handlers of [app.py] *)

(** The [icon_map] dict of [get_weather_icon]. *)
Definition icon_map : gmap string string :=
  list_to_map
    [("01d", "sun"); ("01n", "moon");
     ("02d", "cloud-sun"); ("02n", "cloud-moon");
     ("03d", "cloud"); ("03n", "cloud");
     ("04d", "cloud"); ("04n", "cloud");
     ("09d", "cloud-rain"); ("09n", "cloud-rain");
     ("10d", "cloud-rain"); ("10n", "cloud-rain");
     ("11d", "bolt"); ("11n", "bolt");
     ("13d", "snowflake"); ("13n", "snowflake");
     ("50d", "smog"); ("50n", "smog")].

(** [get_weather_icon] on a [str]: [icon_map.get(weather_code, 'sun')]. *)
Definition get_weather_icon (weather_code : string) : string :=
  default "sun" (icon_map !! weather_code).

(** [get_weather_icon] on whatever the provider put in the [icon] field: a
    list or a dict cannot be hashed, any other value that is not a [str] is
    not a key of [icon_map]. *)
Definition get_weather_icon_of (weather_code : value) : result value :=
  match weather_code with
  | VStr s => Ok (VStr (get_weather_icon s))
  | VList _ | VDict _ => Err (Builtin (Unhashable (type_of weather_code)))
  | _ => Ok (VStr "sun")
  end.

(** [v[k1][k2]...]. *)
Fixpoint path (v : value) (ks : list key) : result value :=
  match ks with
  | [] => Ok v
  | k :: ks => v' ← subscript v k; path v' ks
  end.

(** The float literal [1609.34]. *)
Definition float_1609_34 : spec_float := S754_finite false 7077952172180111 (-42).

(** The unit labels, with the bytes they have in [app.py]. *)
Definition label_metric : string := "¬∞C".
Definition label_other : string := "¬∞F".

(** The [weather_data] dict of [get_current_weather]; the sub-expressions
    are evaluated in the order of the dict display. *)
Definition weather_data (units : string) (data : value) : result value :=
  city ← path data [KStr "name"];
  country ← path data [KStr "sys"; KStr "country"];
  lat ← path data [KStr "coord"; KStr "lat"];
  lon ← path data [KStr "coord"; KStr "lon"];
  current ← path data [KStr "main"; KStr "temp"] ≫= round1;
  feels_like ← path data [KStr "main"; KStr "feels_like"] ≫= round1;
  temp_min ← path data [KStr "main"; KStr "temp_min"] ≫= round1;
  temp_max ← path data [KStr "main"; KStr "temp_max"] ≫= round1;
  let unit := if String.eqb units "metric" then label_metric else label_other in
  main ← path data [KStr "weather"; KIdx 0; KStr "main"];
  description ← path data [KStr "weather"; KIdx 0; KStr "description"] ≫= capitalize_method;
  icon ← path data [KStr "weather"; KIdx 0; KStr "icon"];
  icon_class ← path data [KStr "weather"; KIdx 0; KStr "icon"] ≫= get_weather_icon_of;
  humidity ← path data [KStr "main"; KStr "humidity"];
  pressure ← path data [KStr "main"; KStr "pressure"];
  wind_speed ← path data [KStr "wind"; KStr "speed"] ≫= round1;
  wind_deg ← path data [KStr "wind"] ≫= (λ w, get w "deg" (VInt 0));
  cloudiness ← path data [KStr "clouds"; KStr "all"];
  visibility ←
    (if String.eqb units "metric"
     then v ← get data "visibility" (VInt 10000); truediv v (VInt 1000) ≫= round1
     else v ← get data "visibility" (VInt 10000); truediv v (VFloat float_1609_34) ≫= round1);
  sunrise ← path data [KStr "sys"; KStr "sunrise"];
  sunset ← path data [KStr "sys"; KStr "sunset"];
  timezone ← path data [KStr "timezone"];
  mret (VDict (list_to_map
    [("location", VDict (list_to_map
        [("city", city);
         ("country", country);
         ("coordinates", VDict (list_to_map [("lat", lat); ("lon", lon)]))]));
     ("temperature", VDict (list_to_map
        [("current", current);
         ("feels_like", feels_like);
         ("min", temp_min);
         ("max", temp_max);
         ("unit", VStr unit)]));
     ("weather", VDict (list_to_map
        [("main", main);
         ("description", description);
         ("icon", icon);
         ("icon_class", icon_class)]));
     ("details", VDict (list_to_map
        [("humidity", humidity);
         ("pressure", pressure);
         ("wind_speed", wind_speed);
         ("wind_deg", wind_deg);
         ("cloudiness", cloudiness);
         ("visibility", visibility)]));
     ("system", VDict (list_to_map
        [("sunrise", sunrise);
         ("sunset", sunset);
         ("timezone", timezone)]))])).

(** One entry of the [forecast] list of [get_forecast]. *)
Definition forecast_entry (item : value) : result value :=
  datetime ← path item [KStr "dt_txt"];
  temperature ← path item [KStr "main"; KStr "temp"] ≫= round1;
  feels_like ← path item [KStr "main"; KStr "feels_like"] ≫= round1;
  main ← path item [KStr "weather"; KIdx 0; KStr "main"];
  description ← path item [KStr "weather"; KIdx 0; KStr "description"] ≫= capitalize_method;
  icon ← path item [KStr "weather"; KIdx 0; KStr "icon"];
  icon_class ← path item [KStr "weather"; KIdx 0; KStr "icon"] ≫= get_weather_icon_of;
  humidity ← path item [KStr "main"; KStr "humidity"];
  wind_speed ← path item [KStr "wind"; KStr "speed"] ≫= round1;
  mret (VDict (list_to_map
    [("datetime", datetime);
     ("temperature", temperature);
     ("feels_like", feels_like);
     ("weather", VDict (list_to_map
        [("main", main);
         ("description", description);
         ("icon", icon);
         ("icon_class", icon_class)]));
     ("details", VDict (list_to_map
        [("humidity", humidity);
         ("wind_speed", wind_speed)]))])).

(** The body that [get_forecast] passes to [jsonify]: the loop over
    [data['list'][:5]], then the dict display. *)
Definition forecast_data (units : string) (data : value) : result value :=
  items ← (path data [KStr "list"] ≫= slice_to 5) ≫= iterate;
  forecast ← mapM forecast_entry items;
  city ← path data [KStr "city"; KStr "name"];
  country ← path data [KStr "city"; KStr "country"];
  mret (VDict (list_to_map
    [("location", VDict (list_to_map [("city", city); ("country", country)]));
     ("forecast", VList forecast);
     ("units", VStr units)])).

(** One entry of [processed_locations], also the body of a reverse lookup. *)
Definition location_match (loc : value) : result value :=
  name ← get loc "name" (VStr "");
  state ← get loc "state" (VStr "");
  country ← get loc "country" (VStr "");
  lat ← get loc "lat" VNone;
  lon ← get loc "lon" VNone;
  mret (VDict (list_to_map
    [("name", name); ("state", state); ("country", country); ("lat", lat); ("lon", lon)])).

(** [jsonify({'error': message})]. *)
Definition error_body (message : string) : reply :=
  jsonify (VDict {[ "error" := VStr message ]}).

Section App.

(** The provider credential, read from the environment at start-up. *)
Variable OPENWEATHER_API_KEY : string.

(** The interpreter's wording of the errors it raises itself. *)
Variable wording : builtin_error → string.

(** [if units != 'standard': params['units'] = units]. *)
Definition add_units (units : string) (params : gmap string param) : gmap string param :=
  if negb (String.eqb units "standard") then <["units" := PStr units]> params else params.

(** The [try] block of [get_current_weather] from the response on, with its
    three [except] clauses. *)
Definition current_weather_reply (units : string) (outcome : result Response) : reply :=
  match (response ← outcome;
         _ ← raise_for_status response;
         data ← json response;
         jsonify <$> weather_data units data) with
  | Ok r => r
  | Err (RequestException _ as e) =>
      with_status (error_body ("Weather API request failed: " +:+ str_exn wording e)) 500
  | Err (KeyError _ as e) =>
      with_status
        (error_body ("Invalid response format from weather API: " +:+ str_exn wording e)) 500
  | Err e =>
      with_status (error_body ("Unexpected error: " +:+ str_exn wording e)) 500
  end.

Definition get_current_weather (args : query_args) : prog reply :=
  let city := default "London" (args_get args "city") in
  let country := default "UK" (args_get args "country") in
  let units := default "metric" (args_get args "units") in
  let target := "http://api.openweathermap.org/data/2.5/weather" in
  let params : gmap string param :=
    {[ "q" := PStr (city +:+ "," +:+ country); "appid" := PStr OPENWEATHER_API_KEY ]} in
  let params := add_units units params in
  outcome ← requests_get target params;
  mret (current_weather_reply units outcome).

Definition forecast_reply (units : string) (outcome : result Response) : reply :=
  match (response ← outcome;
         _ ← raise_for_status response;
         data ← json response;
         jsonify <$> forecast_data units data) with
  | Ok r => r
  | Err e => with_status (error_body (str_exn wording e)) 500
  end.

Definition get_forecast (args : query_args) : prog reply :=
  let city := default "London" (args_get args "city") in
  let country := default "UK" (args_get args "country") in
  let units := default "metric" (args_get args "units") in
  let target := "http://api.openweathermap.org/data/2.5/forecast" in
  let params : gmap string param :=
    {[ "q" := PStr (city +:+ "," +:+ country);
       "appid" := PStr OPENWEATHER_API_KEY;
       "cnt" := PInt 5 ]} in
  let params := add_units units params in
  outcome ← requests_get target params;
  mret (forecast_reply units outcome).

Definition search_reply (outcome : result Response) : reply :=
  match (response ← outcome;
         _ ← raise_for_status response;
         locations ← json response;
         items ← iterate locations;
         processed_locations ← mapM location_match items;
         mret (jsonify (VList processed_locations))) with
  | Ok r => r
  | Err e => with_status (error_body (str_exn wording e)) 500
  end.

Definition search_location (args : query_args) : prog reply :=
  let query := default "" (args_get args "q") in
  if String.eqb query "" || (len query <? 2)%nat then mret (jsonify (VList []))
  else
    let target := "http://api.openweathermap.org/geo/1.0/direct" in
    let params : gmap string param :=
      {[ "q" := PStr query; "limit" := PInt 5; "appid" := PStr OPENWEATHER_API_KEY ]} in
    outcome ← requests_get target params;
    mret (search_reply outcome).

Definition reverse_reply (outcome : result Response) : reply :=
  match (response ← outcome;
         _ ← raise_for_status response;
         locations ← json response;
         if truthy locations then
           loc ← subscript locations (KIdx 0);
           jsonify <$> location_match loc
         else
           mret (with_status (error_body "No location found for these coordinates") 404)) with
  | Ok r => r
  | Err e => with_status (error_body (str_exn wording e)) 500
  end.

(** [request.args.get(k)] is [None] or a [str]; [not x] holds of [None] and
    of the empty string. *)
Definition reverse_geocode (args : query_args) : prog reply :=
  let bad_request := with_status (error_body "Latitude and longitude are required") 400 in
  match args_get args "lat", args_get args "lon" with
  | Some lat, Some lon =>
      if String.eqb lat "" || String.eqb lon "" then mret bad_request
      else
        let target := "http://api.openweathermap.org/geo/1.0/reverse" in
        let params : gmap string param :=
          {[ "lat" := PStr lat;
             "lon" := PStr lon;
             "limit" := PInt 1;
             "appid" := PStr OPENWEATHER_API_KEY ]} in
        outcome ← requests_get target params;
        mret (reverse_reply outcome)
  | _, _ => mret bad_request
  end.

End App.

(** ** Spec-side vocabulary

    The table of the icon mapping as the specification words it, the reading
    of "first letter capitalized, rest unchanged", and what it means for a
    value to be another one rounded to one decimal place. *)

Inductive condition :=
| Clear | FewClouds | ScatteredClouds | BrokenClouds | ShowerRain | Rain
| Thunderstorm | Snow | Mist.

Inductive daypart := Day | Night.

(** The provider icon code ["<2-digit-id><d|n>"]. *)
Definition icon_code (c : condition) (p : daypart) : string :=
  match c with
  | Clear => "01"
  | FewClouds => "02"
  | ScatteredClouds => "03"
  | BrokenClouds => "04"
  | ShowerRain => "09"
  | Rain => "10"
  | Thunderstorm => "11"
  | Snow => "13"
  | Mist => "50"
  end +:+
  match p with
  | Day => "d"
  | Night => "n"
  end.

Definition symbol (c : condition) (p : daypart) : string :=
  match c, p with
  | Clear, Day => "sun"
  | Clear, Night => "moon"
  | FewClouds, Day => "cloud-sun"
  | FewClouds, Night => "cloud-moon"
  | ScatteredClouds, _ | BrokenClouds, _ => "cloud"
  | ShowerRain, _ | Rain, _ => "cloud-rain"
  | Thunderstorm, _ => "bolt"
  | Snow, _ => "snowflake"
  | Mist, _ => "smog"
  end.

(** "First letter capitalized, rest unchanged". *)
Definition capitalize_first_only (s : string) : string :=
  match str_chars s with
  | [] => ""
  | (c :: _) as chars => title_char c +:+ rest_text chars
  end.

(** What [capitalize] comes to on ASCII text: the first letter in upper
    case, the other letters in lower case. *)
Definition ascii_capitalize (s : string) : string :=
  match s with
  | EmptyString => EmptyString
  | String c r => String (to_upper c) (str_map to_lower r)
  end.

(** [n] tenths is a decimal with one digit after the point that is nearest
    to [m * 2^e]: the two differ by at most one half of a tenth. *)
Definition nearest_tenths (m : positive) (e n : Z) : Prop :=
  (Z.abs (2 * (10 * Zpos m * 2 ^ Z.max e 0 - n * 2 ^ Z.max (- e) 0)) <= 2 ^ Z.max (- e) 0)%Z.

(** [out] is [v] rounded to one decimal place: an integer is its own
    rounding; NaN, the infinities and the zeros are kept; a finite non-zero
    float becomes the float nearest to a nearest decimal with one digit
    after the point, with the same sign. *)
Inductive rounded_to_1_decimal : value → value → Prop :=
| rounded_int z : rounded_to_1_decimal (VInt z) (VInt z)
| rounded_bool b : rounded_to_1_decimal (VBool b) (VInt (Z.b2z b))
| rounded_special f :
    (∀ s m e, f ≠ S754_finite s m e) →
    rounded_to_1_decimal (VFloat f) (VFloat f)
| rounded_finite s m e n :
    (0 <= n)%Z →
    nearest_tenths m e n →
    rounded_to_1_decimal (VFloat (S754_finite s m e)) (VFloat (float_of_tenths s n)).

(** ** Sample data *)

(** The wording of CPython 3.11 for the errors of [builtin_error]. *)
Definition type_name (t : pytype) : string :=
  match t with
  | TNoneType => "NoneType"
  | TBool => "bool"
  | TInt => "int"
  | TFloat => "float"
  | TStr => "str"
  | TList => "list"
  | TDict => "dict"
  end.

Definition cpython_wording (e : builtin_error) : string :=
  match e with
  | NotSubscriptable t => "'" +:+ type_name t +:+ "' object is not subscriptable"
  | BadIndexType TStr _ => "string indices must be integers, not 'str'"
  | BadIndexType _ _ => "list indices must be integers or slices, not str"
  | IndexOutOfRange TStr => "string index out of range"
  | IndexOutOfRange _ => "list index out of range"
  | NoAttribute t attr => "'" +:+ type_name t +:+ "' object has no attribute '" +:+ attr +:+ "'"
  | NoRound t => "type " +:+ type_name t +:+ " doesn't define __round__ method"
  | BadOperand op t1 t2 =>
      "unsupported operand type(s) for " +:+ op +:+ ": '" +:+ type_name t1 +:+ "' and '"
        +:+ type_name t2 +:+ "'"
  | ZeroDivision false => "division by zero"
  | ZeroDivision true => "float division by zero"
  | IntTooLargeForFloat => "int too large to convert to float"
  | DivisionResultTooLarge => "integer division result too large for a float"
  | Unhashable t => "unhashable type: '" +:+ type_name t +:+ "'"
  | BadSlice _ => "unhashable type: 'slice'"
  | NotIterable t => "'" +:+ type_name t +:+ "' object is not iterable"
  end.

(** The placeholder credential of [app.py]. *)
Definition placeholder_key : string := "your_api_key_here".

(** A provider that gives the same outcome to every call. *)
Definition always (outcome : result Response) : provider := λ _ _, outcome.

(** A current-weather body as the provider sends it, with the description
    and the visibility left open. *)
Definition sample_weather (description : value) (visibility : option value) : value :=
  let common : gmap string value :=
    list_to_map
      [("coord", VDict (list_to_map
          [("lon", VFloat (float_of_ratio (-1257) 10000));
           ("lat", VFloat (float_of_ratio 515085 10000))]));
       ("weather", VList
          [VDict (list_to_map
             [("id", VInt 800);
              ("main", VStr "Clear");
              ("description", description);
              ("icon", VStr "01d")])]);
       ("main", VDict (list_to_map
          [("temp", VFloat (float_of_ratio 1504 100));
           ("feels_like", VFloat (float_of_ratio 1436 100));
           ("temp_min", VFloat (float_of_ratio 1375 100));
           ("temp_max", VInt 16);
           ("pressure", VInt 1012);
           ("humidity", VInt 80)]));
       ("wind", VDict (list_to_map [("speed", VFloat (float_of_ratio 412 100)); ("deg", VInt 80)]));
       ("clouds", VDict (list_to_map [("all", VInt 0)]));
       ("sys", VDict (list_to_map
          [("country", VStr "GB"); ("sunrise", VInt 1700000000); ("sunset", VInt 1700030000)]));
       ("timezone", VInt 0);
       ("name", VStr "London")] in
  VDict (match visibility with
         | Some v => <["visibility" := v]> common
         | None => common
         end).

Definition london : value := sample_weather (VStr "clear sky") (Some (VInt 10000)).

(** One entry of the provider's forecast list. *)
Definition sample_item (dt_txt description : string) (temp : Z) : value :=
  VDict (list_to_map
    [("dt_txt", VStr dt_txt);
     ("main", VDict (list_to_map
        [("temp", VFloat (float_of_ratio temp 100));
         ("feels_like", VFloat (float_of_ratio (temp - 75) 100));
         ("humidity", VInt 70)]));
     ("weather", VList
        [VDict (list_to_map
           [("main", VStr "Rain"); ("description", VStr description); ("icon", VStr "10n")])]);
     ("wind", VDict (list_to_map [("speed", VFloat (float_of_ratio 365 100))]))]).

Definition sample_forecast (items : list value) : value :=
  VDict (list_to_map
    [("list", VList items);
     ("city", VDict (list_to_map [("name", VStr "London"); ("country", VStr "GB")]))]).

Definition seven_items : list value :=
  [sample_item "2024-01-01 00:00:00" "light rain" 1111;
   sample_item "2024-01-01 03:00:00" "moderate rain" 1222;
   sample_item "2024-01-01 06:00:00" "light rain" 1333;
   sample_item "2024-01-01 09:00:00" "heavy intensity rain" 1444;
   sample_item "2024-01-01 12:00:00" "light rain" 1555;
   sample_item "2024-01-01 15:00:00" "light rain" 1666;
   sample_item "2024-01-01 18:00:00" "light rain" 1777].

Definition response_with (code : Z) (phrase : string) (payload : value) : Response :=
  {| status_code := code;
     reason := phrase;
     url := "http://api.openweathermap.org/data/2.5/weather?q=London%2CUK&appid=your_api_key_here&units=metric";
     json := Ok payload |}.

(** The reply to a current-weather request when the provider sends
    [response], and the reply to a forecast request likewise. *)
Definition current_reply_to (response : Response) (args : query_args) : reply :=
  fst (run (always (Ok response)) (get_current_weather placeholder_key cpython_wording args)).

Definition forecast_reply_to (response : Response) (args : query_args) : reply :=
  fst (run (always (Ok response)) (get_forecast placeholder_key cpython_wording args)).

(** ** Vocabulary of the statements *)

(** [request.args.get('units', 'metric')]. *)
Definition units_of (args : query_args) : string :=
  default "metric" (args_get args "units").

(** Handler [h], run against provider [p], made exactly one outbound call,
    received [outcome] from it and replied [r]. *)
Definition answered_by (p : provider) (h : prog reply) (outcome : result Response) (r : reply) :
    Prop :=
  ∃ target params, run p h = (r, [(target, params)]) ∧ p target params = outcome.

(** Handler [h] replied 200 with body [out], having received the JSON value
    [data] from the provider. *)
Definition succeeds_with (p : provider) (h : prog reply) (data out : value) : Prop :=
  ∃ response,
    answered_by p h (Ok response) {| status := 200; body := out |} ∧
    json response = Ok data.

(** The value at [dst_path] of the reply is the value at [src_path] of the
    provider's JSON, rounded to one decimal place. *)
Definition rounds (src : value) (src_path : list key) (dst : value) (dst_path : list key) :
    Prop :=
  ∃ v out,
    path src src_path = Ok v ∧ path dst dst_path = Ok out ∧ rounded_to_1_decimal v out.

(** No upper-case ASCII letter after the first byte. *)
Definition rest_has_no_upper (s : string) : bool :=
  match s with
  | EmptyString => true
  | String _ r => str_forallb (λ c, negb (is_upper c)) r
  end.

(** The floats that the literals [10.0] and [6.2] denote. *)
Definition float_10_0 : spec_float := float_of_ratio 100 10.
Definition float_6_2 : spec_float := float_of_ratio 62 10.

(** The message of the [HTTPError] that [raise_for_status] raises. *)
Definition http_error_message (r : Response) : string :=
  pretty (status_code r)
  +:+ (if (status_code r <? 500)%Z then " Client Error: " else " Server Error: ")
  +:+ reason r +:+ " for url: " +:+ url r.

(** ** Vocabulary of the further properties *)

(** The symbols that the frontend has to know. *)
Definition symbols : list string :=
  ["sun"; "moon"; "cloud-sun"; "cloud-moon"; "cloud"; "cloud-rain"; "bolt"; "snowflake";
   "smog"].

(** A reply that carries nothing but an [error] message. *)
Definition error_only (r : reply) : Prop :=
  ∃ message, body r = VDict {[ "error" := VStr message ]}.

(** The provider answered with a status that [raise_for_status] lets pass. *)
Definition passes (response : Response) : Prop :=
  ¬ (400 <= status_code response < 600)%Z.

(** Two entries of the provider's geocoding list, the second one without
    [state] and without coordinates. *)
Definition sample_location_objects : list (gmap string value) :=
  [list_to_map
     [("name", VStr "London"); ("state", VStr "England"); ("country", VStr "GB");
      ("lat", VFloat (float_of_ratio 515073 10000));
      ("lon", VFloat (float_of_ratio (-1276) 10000));
      ("local_names", VDict (list_to_map [("fr", VStr "Londres")]))];
   list_to_map [("name", VStr "London"); ("country", VStr "CA")]].

Definition sample_locations : value := VList (VDict <$> sample_location_objects).

(** [response] with [data] as its JSON body. *)
Definition answering (response : Response) (data : value) : Response :=
  {| status_code := status_code response;
     reason := reason response;
     url := url response;
     json := Ok data |}.

(** A provider's list whose third entry has no field at all. *)
Definition items_with_a_bad_entry : list value :=
  [sample_item "2024-01-01 00:00:00" "light rain" 1111;
   sample_item "2024-01-01 03:00:00" "moderate rain" 1222;
   VDict ∅;
   VList []].

(** The members of the London sample. *)
Definition london_object : gmap string value :=
  match london with
  | VDict m => m
  | _ => ∅
  end.

(** ** The icon mapping *)

Lemma icon_map_lookup_Some code sym :
  icon_map !! code = Some sym → ∃ c p, code = icon_code c p ∧ sym = symbol c p.
Proof.
  intros Hl. apply elem_of_list_to_map_2 in Hl.
  repeat (apply elem_of_cons in Hl as [Hl | Hl];
          [ injection Hl as -> -> | ]).
  all: try (by apply elem_of_nil in Hl).
  - by exists Clear, Day.
  - by exists Clear, Night.
  - by exists FewClouds, Day.
  - by exists FewClouds, Night.
  - by exists ScatteredClouds, Day.
  - by exists ScatteredClouds, Night.
  - by exists BrokenClouds, Day.
  - by exists BrokenClouds, Night.
  - by exists ShowerRain, Day.
  - by exists ShowerRain, Night.
  - by exists Rain, Day.
  - by exists Rain, Night.
  - by exists Thunderstorm, Day.
  - by exists Thunderstorm, Night.
  - by exists Snow, Day.
  - by exists Snow, Night.
  - by exists Mist, Day.
  - by exists Mist, Night.
Qed.

(** C1. [get_weather_icon] is a function on all strings; on the eighteen
    codes of the vocabulary it gives the symbol of the table, and on every
    other string it gives ["sun"]. *)
Theorem icon_mapping_table :
  (∀ c p, get_weather_icon (icon_code c p) = symbol c p) ∧
  (∀ code, (∀ c p, code ≠ icon_code c p) → get_weather_icon code = "sun").
Proof.
  split.
  - intros [] []; reflexivity.
  - intros code Hout. unfold get_weather_icon.
    destruct (icon_map !! code) as [sym|] eqn:Hl; [ | reflexivity ].
    apply icon_map_lookup_Some in Hl as (c & p & -> & _).
    by destruct (Hout c p).
Qed.

Lemma icon_mapping_table_witness :
  (∀ c p, "99x" ≠ icon_code c p) ∧ get_weather_icon "99x" = "sun".
Proof.
  split.
  - intros [] []; discriminate.
  - apply (proj2 icon_mapping_table). intros [] []; discriminate.
Defined.

(** ** Local validation of the location handlers *)

Section Validation.

Variable api_key : string.
Variable wording : builtin_error → string.

(** C6. Without [q], or with a [q] of fewer than two characters,
    [search_location] replies 200 with an empty list and calls nobody. *)
Theorem search_location_short_query (p : provider) (args : query_args) :
  (args_get args "q" = None ∨ ∃ q, args_get args "q" = Some q ∧ (len q < 2)%nat) →
  run p (search_location api_key wording args) = ({| status := 200; body := VList [] |}, []).
Proof.
  intros Hq. unfold search_location.
  destruct Hq as [-> | (q & -> & Hlen)]; simpl default.
  - reflexivity.
  - apply Nat.ltb_lt in Hlen. rewrite Hlen, orb_true_r. reflexivity.
Qed.

(** C7. Without [lat] or without [lon], [reverse_geocode] replies 400 with
    an [error] body and calls nobody. *)
Theorem reverse_geocode_missing_param (p : provider) (args : query_args) :
  args_get args "lat" = None ∨ args_get args "lon" = None →
  run p (reverse_geocode api_key wording args)
  = ({| status := 400;
        body := VDict {[ "error" := VStr "Latitude and longitude are required" ]} |}, []).
Proof.
  intros Hmiss. unfold reverse_geocode.
  destruct Hmiss as [-> | ->]; [ reflexivity | ].
  by destruct (args_get args "lat").
Qed.

(** C10. [reverse_geocode] tests [lat] and [lon] for truth only: an empty
    value gets the reply of an absent one, and two non-empty values are sent
    to the provider as they came, whatever their text. *)
Theorem reverse_geocode_truthiness (p : provider) (args : query_args) :
  (args_get args "lat" = Some "" ∨ args_get args "lon" = Some "" →
   run p (reverse_geocode api_key wording args)
   = ({| status := 400;
         body := VDict {[ "error" := VStr "Latitude and longitude are required" ]} |}, [])) ∧
  (∀ lat lon,
     args_get args "lat" = Some lat → args_get args "lon" = Some lon →
     lat ≠ "" → lon ≠ "" →
     let target := "http://api.openweathermap.org/geo/1.0/reverse" in
     let params : gmap string param :=
       {[ "lat" := PStr lat; "lon" := PStr lon; "limit" := PInt 1; "appid" := PStr api_key ]} in
     run p (reverse_geocode api_key wording args)
     = (reverse_reply wording (p target params), [(target, params)])).
Proof.
  split.
  - intros Hempty. unfold reverse_geocode.
    destruct Hempty as [-> | ->].
    + by destruct (args_get args "lon").
    + destruct (args_get args "lat"); [ | reflexivity ].
      by rewrite orb_true_r.
  - intros lat lon Hla Hlo Hlat Hlon. unfold reverse_geocode.
    rewrite Hla, Hlo.
    apply String.eqb_neq in Hlat, Hlon. rewrite Hlat, Hlon. reflexivity.
Qed.

End Validation.

Lemma search_location_short_query_witness :
  (args_get [("q", "é")] "q" = None
   ∨ ∃ q, args_get [("q", "é")] "q" = Some q ∧ (len q < 2)%nat) ∧
  run (always (Ok (response_with 200 "OK" london)))
      (search_location placeholder_key cpython_wording [("q", "é")])
  = ({| status := 200; body := VList [] |}, []).
Proof.
  assert (Hq : args_get [("q", "é")] "q" = None
               ∨ ∃ q, args_get [("q", "é")] "q" = Some q ∧ (len q < 2)%nat).
  { right. exists "é". split; [ reflexivity | vm_compute; lia ]. }
  split; [ exact Hq | ].
  exact (search_location_short_query placeholder_key cpython_wording _ _ Hq).
Defined.

Lemma reverse_geocode_missing_param_witness :
  (args_get [("lat", "51.5")] "lat" = None ∨ args_get [("lat", "51.5")] "lon" = None) ∧
  run (always (Ok (response_with 200 "OK" (VList []))))
      (reverse_geocode placeholder_key cpython_wording [("lat", "51.5")])
  = ({| status := 400;
        body := VDict {[ "error" := VStr "Latitude and longitude are required" ]} |}, []).
Proof.
  assert (Hmiss : args_get [("lat", "51.5")] "lat" = None
                  ∨ args_get [("lat", "51.5")] "lon" = None).
  { right. reflexivity. }
  split; [ exact Hmiss | ].
  exact (reverse_geocode_missing_param placeholder_key cpython_wording _ _ Hmiss).
Defined.

Lemma reverse_geocode_truthiness_witness :
  run (always (Ok (response_with 200 "OK" (VList []))))
      (reverse_geocode placeholder_key cpython_wording [("lat", ""); ("lon", "0.1")])
  = ({| status := 400;
        body := VDict {[ "error" := VStr "Latitude and longitude are required" ]} |}, []) ∧
  snd (run (always (Ok (response_with 200 "OK" (VList []))))
           (reverse_geocode placeholder_key cpython_wording [("lat", "north"); ("lon", "0.1")]))
  = [("http://api.openweathermap.org/geo/1.0/reverse",
      {[ "lat" := PStr "north"; "lon" := PStr "0.1"; "limit" := PInt 1;
         "appid" := PStr placeholder_key ]})].
Proof.
  split.
  - apply (proj1 (reverse_geocode_truthiness placeholder_key cpython_wording _
                    [("lat", ""); ("lon", "0.1")])).
    left. reflexivity.
  - rewrite (proj2 (reverse_geocode_truthiness placeholder_key cpython_wording _
                      [("lat", "north"); ("lon", "0.1")]) "north" "0.1");
      [ reflexivity | reflexivity | reflexivity | discriminate | discriminate ].
Defined.

(** ** The success path of the weather handlers *)

Lemma bind_Ok {A B} (m : result A) (f : A → result B) (b : B) :
  m ≫= f = Ok b → ∃ a, m = Ok a ∧ f a = Ok b.
Proof. destruct m as [a|e]; [ by exists a | discriminate ]. Qed.

(** Peel the binds of a computation known to succeed. *)
Ltac peel H :=
  repeat match type of H with
         | mbind _ _ = Ok _ =>
             let E := fresh "E" in
             apply bind_Ok in H as (? & E & H); cbv beta in H;
             try peel E
         end.

Lemma mapM_Ok {A B} (f : A → result B) (l : list A) (k : list B) :
  mapM f l = Ok k → Forall2 (λ x y, f x = Ok y) l k.
Proof.
  revert k. induction l as [|x l IH]; intros k Hk.
  - injection Hk as <-. constructor.
  - cbn [mapM] in Hk. peel Hk. injection Hk as <-. constructor; auto.
Qed.

(** A reply computed by an [except] clause has status 500. *)
Ltac reply_failed e :=
  cbn [mbind result_bind fmap result_fmap];
  try destruct e; intros H; change (500 = 200)%Z in H; discriminate H.

Section Replies.

Variable wording : builtin_error → string.

(** A 200 reply of [get_current_weather] comes from the body of the [try]
    block: the call returned, the status was no HTTP error, the body was
    JSON, and every field was found. *)
Lemma current_weather_reply_200 units outcome :
  status (current_weather_reply wording units outcome) = 200%Z →
  ∃ response data,
    outcome = Ok response ∧ raise_for_status response = Ok () ∧
    json response = Ok data ∧
    weather_data units data = Ok (body (current_weather_reply wording units outcome)).
Proof.
  unfold current_weather_reply.
  destruct outcome as [response|e]; [ | reply_failed e ].
  cbn [mbind result_bind].
  destruct (raise_for_status response) as [[]|e] eqn:Hst; [ | reply_failed e ].
  cbn [mbind result_bind].
  destruct (json response) as [data|e] eqn:Hjson; [ | reply_failed e ].
  cbn [mbind result_bind].
  destruct (weather_data units data) as [wd|e] eqn:Hwd; [ | reply_failed e ].
  intros _. exists response, data. repeat split; [ exact Hst | exact Hjson | exact Hwd ].
Qed.

Lemma forecast_reply_200 units outcome :
  status (forecast_reply wording units outcome) = 200%Z →
  ∃ response data,
    outcome = Ok response ∧ raise_for_status response = Ok () ∧
    json response = Ok data ∧
    forecast_data units data = Ok (body (forecast_reply wording units outcome)).
Proof.
  unfold forecast_reply.
  destruct outcome as [response|e]; [ | reply_failed e ].
  cbn [mbind result_bind].
  destruct (raise_for_status response) as [[]|e] eqn:Hst; [ | reply_failed e ].
  cbn [mbind result_bind].
  destruct (json response) as [data|e] eqn:Hjson; [ | reply_failed e ].
  cbn [mbind result_bind].
  destruct (forecast_data units data) as [wd|e] eqn:Hwd; [ | reply_failed e ].
  intros _. exists response, data. repeat split; [ exact Hst | exact Hjson | exact Hwd ].
Qed.

End Replies.

(** *** Rounding *)

Lemma nearest_even_close (a q : Z) :
  (0 < q)%Z → (Z.abs (2 * (a - nearest_even a q * q)) <= q)%Z.
Proof.
  intros Hq. unfold nearest_even.
  pose proof (Z.div_mod a q ltac:(lia)) as Hdm.
  pose proof (Z.mod_pos_bound a q Hq) as Hr.
  destruct (Z.compare_spec (2 * (a mod q)) q) as [Heq|Hlt|Hgt];
    [ destruct (Z.even (a / q)) | | ]; lia.
Qed.

Lemma nearest_even_nonneg (a q : Z) : (0 <= a)%Z → (0 < q)%Z → (0 <= nearest_even a q)%Z.
Proof.
  intros Ha Hq. unfold nearest_even.
  pose proof (Z.div_pos a q Ha Hq).
  destruct (2 * (a mod q) ?= q)%Z; [ destruct (Z.even (a / q)) | | ]; lia.
Qed.

Lemma tenths_nonneg (m : positive) (e : Z) : (0 <= tenths m e)%Z.
Proof.
  unfold tenths. destruct (Z.leb_spec 0 e) as [He|He].
  - pose proof (Z.pow_nonneg 2 e ltac:(lia)). nia.
  - apply nearest_even_nonneg; [ lia | apply Z.pow_pos_nonneg; lia ].
Qed.

Lemma tenths_nearest (m : positive) (e : Z) : nearest_tenths m e (tenths m e).
Proof.
  unfold nearest_tenths, tenths. destruct (Z.leb_spec 0 e) as [He|He].
  - rewrite (Z.max_l e 0), (Z.max_r (- e) 0) by lia.
    change (2 ^ 0)%Z with 1%Z. lia.
  - rewrite (Z.max_r e 0), (Z.max_l (- e) 0) by lia.
    change (2 ^ 0)%Z with 1%Z. rewrite Z.mul_1_r.
    apply nearest_even_close. apply Z.pow_pos_nonneg; lia.
Qed.

(** [round(v, 1)] rounds to one decimal place. *)
Lemma round1_sound (v out : value) : round1 v = Ok out → rounded_to_1_decimal v out.
Proof.
  destruct v as [ |b|z|f|s|l|m]; try discriminate; intros [= <-].
  - constructor.
  - constructor.
  - destruct f as [s|s| |s m e]; try (by apply rounded_special).
    apply rounded_finite; [ apply tenths_nonneg | apply tenths_nearest ].
Qed.

Lemma truediv_float (a b r : value) : truediv a b = Ok r → ∃ q, r = VFloat q.
Proof.
  unfold truediv.
  destruct (as_number a) as [[x|fx]|], (as_number b) as [[y|fy]|]; try discriminate.
  - destruct (y =? 0)%Z; [ discriminate | ].
    destruct (SFdiv prec emax (exact_of_int x) (exact_of_int y)); intros [= <-]; eauto.
  - intros H. peel H. destruct (is_zero _); [ discriminate | ]. injection H as <-. eauto.
  - intros H. peel H. destruct (is_zero _); [ discriminate | ]. injection H as <-. eauto.
  - intros H. peel H. destruct (is_zero _); [ discriminate | ]. injection H as <-. eauto.
Qed.

(** *** From a 200 reply back to the provider's JSON *)

Section Success.

Variable api_key : string.
Variable wording : builtin_error → string.

(** The weather handlers make exactly one outbound call, whatever the
    arguments. *)
Lemma get_current_weather_run (p : provider) (args : query_args) :
  ∃ target params,
    run p (get_current_weather api_key wording args)
    = (current_weather_reply wording (units_of args) (p target params), [(target, params)]).
Proof. eexists _, _. reflexivity. Qed.

Lemma get_forecast_run (p : provider) (args : query_args) :
  ∃ target params,
    run p (get_forecast api_key wording args)
    = (forecast_reply wording (units_of args) (p target params), [(target, params)]).
Proof. eexists _, _. reflexivity. Qed.

Lemma answered_by_current p args outcome r :
  answered_by p (get_current_weather api_key wording args) outcome r →
  r = current_weather_reply wording (units_of args) outcome.
Proof.
  intros (target & params & Hrun & Hp).
  destruct (get_current_weather_run p args) as (target' & params' & Hrun').
  rewrite Hrun' in Hrun. injection Hrun as <- <- <-. by rewrite Hp.
Qed.

Lemma answered_by_forecast p args outcome r :
  answered_by p (get_forecast api_key wording args) outcome r →
  r = forecast_reply wording (units_of args) outcome.
Proof.
  intros (target & params & Hrun & Hp).
  destruct (get_forecast_run p args) as (target' & params' & Hrun').
  rewrite Hrun' in Hrun. injection Hrun as <- <- <-. by rewrite Hp.
Qed.

Lemma succeeds_current p args data out :
  succeeds_with p (get_current_weather api_key wording args) data out →
  weather_data (units_of args) data = Ok out.
Proof.
  intros (response & Hans & Hjson). apply answered_by_current in Hans.
  destruct (current_weather_reply_200 wording (units_of args) (Ok response))
    as (response' & data' & [= <-] & _ & Hjson' & Hwd).
  { by rewrite <- Hans. }
  rewrite <- Hans in Hwd. cbn [body] in Hwd. congruence.
Qed.

Lemma succeeds_forecast p args data out :
  succeeds_with p (get_forecast api_key wording args) data out →
  forecast_data (units_of args) data = Ok out.
Proof.
  intros (response & Hans & Hjson). apply answered_by_forecast in Hans.
  destruct (forecast_reply_200 wording (units_of args) (Ok response))
    as (response' & data' & [= <-] & _ & Hjson' & Hwd).
  { by rewrite <- Hans. }
  rewrite <- Hans in Hwd. cbn [body] in Hwd. congruence.
Qed.

(** Every 200 reply of a weather handler is of this kind. *)
Lemma current_200_succeeds p args :
  status (fst (run p (get_current_weather api_key wording args))) = 200%Z →
  ∃ data, succeeds_with p (get_current_weather api_key wording args) data
            (body (fst (run p (get_current_weather api_key wording args)))).
Proof.
  destruct (get_current_weather_run p args) as (target & params & Hrun).
  rewrite Hrun. cbn [fst]. intros H200.
  destruct (current_weather_reply_200 _ _ _ H200) as (response & data & Ho & _ & Hjson & _).
  exists data, response. split; [ | exact Hjson ].
  exists target, params. split; [ | exact Ho ].
  f_equal. destruct (current_weather_reply _ _ _); cbn in *. by subst.
Qed.

Lemma forecast_200_succeeds p args :
  status (fst (run p (get_forecast api_key wording args))) = 200%Z →
  ∃ data, succeeds_with p (get_forecast api_key wording args) data
            (body (fst (run p (get_forecast api_key wording args)))).
Proof.
  destruct (get_forecast_run p args) as (target & params & Hrun).
  rewrite Hrun. cbn [fst]. intros H200.
  destruct (forecast_reply_200 _ _ _ H200) as (response & data & Ho & _ & Hjson & _).
  exists data, response. split; [ | exact Hjson ].
  exists target, params. split; [ | exact Ho ].
  f_equal. destruct (forecast_reply _ _ _); cbn in *. by subst.
Qed.

End Success.

(** *** The fields of [weather_data] *)

Ltac weather_fields H :=
  unfold weather_data in H; peel H; injection H as <-.

Lemma weather_data_unit units data out :
  weather_data units data = Ok out →
  path out [KStr "temperature"; KStr "unit"]
  = Ok (VStr (if String.eqb units "metric" then label_metric else label_other)).
Proof. intros H. weather_fields H. reflexivity. Qed.

Ltac rounded_field :=
  eexists _, _; split; [ eassumption | split; [ reflexivity | apply round1_sound; eassumption ] ].

Lemma weather_data_rounded units data out :
  weather_data units data = Ok out →
  rounds data [KStr "main"; KStr "temp"] out [KStr "temperature"; KStr "current"] ∧
  rounds data [KStr "main"; KStr "feels_like"] out [KStr "temperature"; KStr "feels_like"] ∧
  rounds data [KStr "main"; KStr "temp_min"] out [KStr "temperature"; KStr "min"] ∧
  rounds data [KStr "main"; KStr "temp_max"] out [KStr "temperature"; KStr "max"] ∧
  rounds data [KStr "wind"; KStr "speed"] out [KStr "details"; KStr "wind_speed"].
Proof. intros H. weather_fields H. repeat split; rounded_field. Qed.

Lemma weather_data_description units data out d :
  weather_data units data = Ok out →
  path data [KStr "weather"; KIdx 0; KStr "description"] = Ok (VStr d) →
  path out [KStr "weather"; KStr "description"] = Ok (VStr (capitalize d)).
Proof.
  intros H Hd. weather_fields H.
  match goal with
  | E : path _ [KStr "weather"; KIdx 0%Z; KStr "description"] = Ok ?a,
    E' : capitalize_method ?a = Ok _ |- _ =>
      rewrite Hd in E; injection E as <-; injection E' as <-
  end.
  reflexivity.
Qed.

Lemma weather_data_visibility units data out :
  weather_data units data = Ok out →
  ∃ m q,
    data = VDict m ∧
    truediv (default (VInt 10000) (m !! "visibility"))
            (if String.eqb units "metric" then VInt 1000 else VFloat float_1609_34)
    = Ok (VFloat q) ∧
    path out [KStr "details"; KStr "visibility"] = Ok (VFloat (float_round1 q)).
Proof.
  intros H. weather_fields H.
  match goal with
  | E : (if _ then _ else _) = Ok _ |- _ => rename E into Hvis
  end.
  destruct data as [ | | | | | |m]; try by destruct (String.eqb units "metric").
  exists m.
  destruct (String.eqb units "metric"); peel Hvis;
    match goal with
    | E : get _ _ _ = Ok _ |- _ => injection E as <-
    end;
    match goal with
    | E : truediv _ _ = Ok ?a |- _ =>
        destruct (truediv_float _ _ _ E) as [q ->]; exists q
    end;
    injection Hvis as <-; by split.
Qed.

(** *** The entries of the forecast *)

Ltac entry_fields H :=
  unfold forecast_entry in H; peel H; injection H as <-.

Lemma forecast_entry_rounded item entry :
  forecast_entry item = Ok entry →
  rounds item [KStr "main"; KStr "temp"] entry [KStr "temperature"] ∧
  rounds item [KStr "main"; KStr "feels_like"] entry [KStr "feels_like"] ∧
  rounds item [KStr "wind"; KStr "speed"] entry [KStr "details"; KStr "wind_speed"].
Proof. intros H. entry_fields H. repeat split; rounded_field. Qed.

Lemma forecast_entry_description item entry d :
  forecast_entry item = Ok entry →
  path item [KStr "weather"; KIdx 0; KStr "description"] = Ok (VStr d) →
  path entry [KStr "weather"; KStr "description"] = Ok (VStr (capitalize d)).
Proof.
  intros H Hd. entry_fields H.
  match goal with
  | E : path _ [KStr "weather"; KIdx 0%Z; KStr "description"] = Ok ?a,
    E' : capitalize_method ?a = Ok _ |- _ =>
      rewrite Hd in E; injection E as <-; injection E' as <-
  end.
  reflexivity.
Qed.

Lemma forecast_data_entries units data out items :
  forecast_data units data = Ok out →
  path data [KStr "list"] = Ok (VList items) →
  ∃ entries,
    path out [KStr "forecast"] = Ok (VList entries) ∧
    Forall2 (λ item entry, forecast_entry item = Ok entry) (take 5 items) entries.
Proof.
  intros H Hlist. unfold forecast_data in H. peel H. injection H as <-.
  match goal with
  | E : path _ [KStr "list"] = Ok ?a, E' : slice_to 5 ?a = Ok ?b, E'' : iterate ?b = Ok _ |- _ =>
      rewrite Hlist in E; injection E as <-; injection E' as <-; injection E'' as <-
  end.
  eexists. split; [ reflexivity | ]. by apply mapM_Ok.
Qed.

Lemma path_index (l : list value) (i : nat) (v : value) (ks : list key) :
  l !! i = Some v → path (VList l) (KIdx (Z.of_nat i) :: ks) = path v ks.
Proof.
  intros Hl. cbn [path subscript]. unfold position.
  destruct (Z.leb_spec 0 (Z.of_nat i)) as [_|]; [ | lia ].
  cbn [mbind option_bind]. rewrite Nat2Z.id, Hl. reflexivity.
Qed.

Lemma path_cons (v v' : value) (k : key) (ks : list key) :
  path v [k] = Ok v' → path v (k :: ks) = path v' ks.
Proof.
  cbn [path]. destruct (subscript v k) as [w|e]; [ | discriminate ].
  by intros [= ->].
Qed.

(** ** The claims about the weather handlers *)

Lemma to_lower_fixed (c : ascii) : to_lower c = c ↔ is_upper c = false.
Proof. destruct c as [[] [] [] [] [] [] [] []]; vm_compute; split; congruence. Qed.

Lemma str_map_to_lower_fixed (r : string) :
  str_map to_lower r = r ↔ str_forallb (λ c, negb (is_upper c)) r = true.
Proof.
  induction r as [|c r IH]; cbn [str_map str_forallb]; [ done | ].
  rewrite andb_true_iff, negb_true_iff, <- IH, <- to_lower_fixed.
  split; [ by intros [= Hc Hr] | intros [Hc Hr]; by rewrite Hc, Hr ].
Qed.

Lemma string_app_inv_head (s a b : string) : s +:+ a = s +:+ b → a = b.
Proof. induction s as [|c s IH]; cbn; [ done | ]. intros [= H]. by apply IH. Qed.

(** [capitalize] agrees with "first letter capitalized, rest unchanged"
    exactly on the strings whose characters after the first are left as they
    are by the lower-case mapping. *)
Lemma capitalize_first_only_iff (d : string) :
  capitalize d = capitalize_first_only d ↔
  rest_lowered (str_chars d) = rest_text (str_chars d).
Proof.
  unfold capitalize, capitalize_first_only.
  destruct (str_chars d) as [|c chars]; [ done | ].
  split; [ apply string_app_inv_head | by intros -> ].
Qed.

(** *** ASCII text

    On ASCII text the Unicode mappings come to the familiar ones: the first
    letter in upper case, the other letters in lower case. *)

Lemma is_ascii_not_continuation (b : ascii) : is_ascii b = true → is_continuation b = false.
Proof. destruct b as [[] [] [] [] [] [] [] []]; vm_compute; congruence. Qed.

Lemma title_char_ascii (b : ascii) :
  is_ascii b = true → title_char (String b "") = String (to_upper b) "".
Proof.
  destruct b as [[] [] [] [] [] [] [] []]; intros H; try discriminate H;
    vm_compute; reflexivity.
Qed.

Lemma lower_char_at_ascii (chars : list string) (i : nat) (b : ascii) :
  is_ascii b = true → lower_char_at chars i (String b "") = String (to_lower b) "".
Proof.
  destruct b as [[] [] [] [] [] [] [] []]; intros H; try discriminate H;
    vm_compute; reflexivity.
Qed.

Lemma str_chars_ascii (s : string) :
  str_forallb is_ascii s = true →
  str_chars s = (λ b, String b "") <$> list_ascii_of_string s.
Proof.
  induction s as [|c r IH]; [ done | ].
  cbn [str_forallb]. rewrite andb_true_iff. intros [Hc Hr].
  cbn [str_chars list_ascii_of_string fmap list_fmap]. rewrite (IH Hr).
  destruct r as [|d r]; [ reflexivity | ].
  cbn [str_forallb] in Hr. apply andb_true_iff in Hr as [Hd _].
  rewrite (is_ascii_not_continuation d Hd). reflexivity.
Qed.

Lemma concat_singletons (l : list ascii) :
  String.concat "" ((λ b, String b "") <$> l) = string_of_list_ascii l.
Proof.
  induction l as [|b l IH]; [ reflexivity | ].
  cbn [fmap list_fmap string_of_list_ascii]. rewrite <- IH.
  destruct l; reflexivity.
Qed.

Lemma string_of_list_ascii_map (f : ascii → ascii) (r : string) :
  string_of_list_ascii (f <$> list_ascii_of_string r) = str_map f r.
Proof. induction r as [|c r IH]; [ reflexivity | ]. cbn. by rewrite <- IH. Qed.

Lemma imap_lower_ascii (f : nat → string → string) (l : list ascii) :
  (∀ i b, is_ascii b = true → f i (String b "") = String (to_lower b) "") →
  Forall (λ b, is_ascii b = true) l →
  imap f ((λ b, String b "") <$> l) = (λ b, String b "") <$> (to_lower <$> l).
Proof.
  revert f. induction l as [|b l IH]; intros f Hf Hl; [ reflexivity | ].
  apply Forall_cons in Hl as [Hb Hl].
  cbn [fmap list_fmap imap]. rewrite (Hf 0%nat b Hb). f_equal.
  apply IH; [ | exact Hl ]. intros i c Hc. by apply Hf.
Qed.

Lemma str_forallb_Forall (p : ascii → bool) (s : string) :
  str_forallb p s = true → Forall (λ b, p b = true) (list_ascii_of_string s).
Proof.
  induction s as [|c r IH]; [ constructor | ].
  cbn [str_forallb]. rewrite andb_true_iff. intros [Hc Hr]. constructor; auto.
Qed.

(** On ASCII text, [capitalize] puts the first letter in upper case and the
    other letters in lower case. *)
Lemma capitalize_ascii (d : string) :
  str_forallb is_ascii d = true → capitalize d = ascii_capitalize d.
Proof.
  intros Hd. unfold capitalize. rewrite (str_chars_ascii d Hd).
  destruct d as [|c r]; [ reflexivity | ].
  cbn [str_forallb] in Hd. apply andb_true_iff in Hd as [Hc Hr].
  cbn [list_ascii_of_string fmap list_fmap].
  rewrite (title_char_ascii c Hc). unfold rest_lowered. cbn [tail].
  rewrite (imap_lower_ascii _ (list_ascii_of_string r)).
  - rewrite concat_singletons, string_of_list_ascii_map. reflexivity.
  - intros i b Hb. by apply lower_char_at_ascii.
  - by apply str_forallb_Forall.
Qed.

Lemma capitalize_first_only_ascii (c : ascii) (r : string) :
  str_forallb is_ascii (String c r) = true →
  capitalize_first_only (String c r) = String (to_upper c) r.
Proof.
  intros Hd. unfold capitalize_first_only. rewrite (str_chars_ascii _ Hd).
  cbn [str_forallb] in Hd. apply andb_true_iff in Hd as [Hc Hr].
  cbn [list_ascii_of_string fmap list_fmap].
  rewrite (title_char_ascii c Hc). unfold rest_text. cbn [tail].
  rewrite concat_singletons, string_of_list_ascii_of_string. reflexivity.
Qed.

(** On ASCII text, the characters after the first are left unchanged exactly
    when none of them is an upper-case letter. *)
Lemma capitalize_ascii_unchanged_iff (d : string) :
  str_forallb is_ascii d = true →
  capitalize d = capitalize_first_only d ↔ rest_has_no_upper d = true.
Proof.
  intros Hd. rewrite (capitalize_ascii d Hd).
  destruct d as [|c r]; [ done | ].
  rewrite (capitalize_first_only_ascii c r Hd).
  cbn [ascii_capitalize rest_has_no_upper]. rewrite <- str_map_to_lower_fixed.
  split; [ by intros [= ->] | by intros -> ].
Qed.

Section Weather.

Variable api_key : string.
Variable wording : builtin_error → string.

(** C2, as amended. For every description string, the [description] of the
    current-weather reply and of every forecast entry is the provider's
    string with its first character capitalized (in title case) and every
    other character in lower case, as [str.capitalize()] gives it; the other
    characters are left unchanged exactly when putting them in lower case
    changes nothing. *)
Theorem description_capitalized (p : provider) (args : query_args) :
  (∀ data out d,
     succeeds_with p (get_current_weather api_key wording args) data out →
     path data [KStr "weather"; KIdx 0; KStr "description"] = Ok (VStr d) →
     path out [KStr "weather"; KStr "description"] = Ok (VStr (capitalize d)) ∧
     (capitalize d = capitalize_first_only d ↔
      rest_lowered (str_chars d) = rest_text (str_chars d))) ∧
  (∀ data out items i item d,
     succeeds_with p (get_forecast api_key wording args) data out →
     path data [KStr "list"] = Ok (VList items) →
     (i < 5)%nat → items !! i = Some item →
     path item [KStr "weather"; KIdx 0; KStr "description"] = Ok (VStr d) →
     path out [KStr "forecast"; KIdx (Z.of_nat i); KStr "weather"; KStr "description"]
     = Ok (VStr (capitalize d)) ∧
     (capitalize d = capitalize_first_only d ↔
      rest_lowered (str_chars d) = rest_text (str_chars d))).
Proof.
  split.
  - intros data out d Hok Hd. split; [ | apply capitalize_first_only_iff ].
    apply succeeds_current in Hok. by eapply weather_data_description.
  - intros data out items i item d Hok Hlist Hi Hitem Hd.
    split; [ | apply capitalize_first_only_iff ].
    apply succeeds_forecast in Hok.
    destruct (forecast_data_entries _ _ _ _ Hok Hlist) as (entries & Hf & Hall).
    rewrite (path_cons _ _ _ _ Hf).
    assert (Htake : take 5 items !! i = Some item) by by rewrite lookup_take_lt.
    destruct (Forall2_lookup_l _ _ _ _ _ Hall Htake) as (entry & Hentry & Hbuilt).
    rewrite (path_index _ _ _ _ Hentry).
    by eapply forecast_entry_description.
Qed.

(** The unit label of a 200 reply is chosen by [units == 'metric'] alone. *)
Lemma unit_label (p : provider) (args : query_args) (data out : value) :
  succeeds_with p (get_current_weather api_key wording args) data out →
  path out [KStr "temperature"; KStr "unit"]
  = Ok (VStr (if String.eqb (units_of args) "metric" then label_metric else label_other)).
Proof. intros Hok. apply succeeds_current in Hok. by eapply weather_data_unit. Qed.

(** C4. The [visibility] of a 200 reply is the provider's [visibility], or
    10000 when the provider sent none, divided by 1000 for [metric] and by
    1609.34 otherwise, and rounded to one decimal place; 10000 gives 10.0 for
    [metric] and 6.2 otherwise. *)
Theorem visibility_conversion (p : provider) (args : query_args) (data out : value) :
  succeeds_with p (get_current_weather api_key wording args) data out →
  ∃ m q,
    data = VDict m ∧
    truediv (default (VInt 10000) (m !! "visibility"))
            (if String.eqb (units_of args) "metric" then VInt 1000 else VFloat float_1609_34)
    = Ok (VFloat q) ∧
    path out [KStr "details"; KStr "visibility"] = Ok (VFloat (float_round1 q)) ∧
    rounded_to_1_decimal (VFloat q) (VFloat (float_round1 q)) ∧
    (default (VInt 10000) (m !! "visibility") = VInt 10000 →
     float_round1 q
     = if String.eqb (units_of args) "metric" then float_10_0 else float_6_2).
Proof.
  intros Hok. apply succeeds_current in Hok.
  destruct (weather_data_visibility _ _ _ Hok) as (m & q & -> & Hdiv & Hout).
  exists m, q. repeat split; [ exact Hdiv | exact Hout | by apply round1_sound | ].
  intros Hv. rewrite Hv in Hdiv.
  destruct (String.eqb (units_of args) "metric");
    vm_compute in Hdiv; injection Hdiv as <-; vm_compute; reflexivity.
Qed.

(** C5. In a 200 reply, the four temperatures and the wind speed of the
    current weather, and the temperature, the felt temperature and the wind
    speed of every forecast entry, are the provider's values rounded to one
    decimal place. *)
Theorem temperatures_and_speeds_rounded (p : provider) (args : query_args) :
  (∀ data out,
   succeeds_with p (get_current_weather api_key wording args) data out →
   rounds data [KStr "main"; KStr "temp"] out [KStr "temperature"; KStr "current"] ∧
   rounds data [KStr "main"; KStr "feels_like"] out [KStr "temperature"; KStr "feels_like"] ∧
   rounds data [KStr "main"; KStr "temp_min"] out [KStr "temperature"; KStr "min"] ∧
   rounds data [KStr "main"; KStr "temp_max"] out [KStr "temperature"; KStr "max"] ∧
   rounds data [KStr "wind"; KStr "speed"] out [KStr "details"; KStr "wind_speed"]) ∧
  (∀ data out items i item,
     succeeds_with p (get_forecast api_key wording args) data out →
     path data [KStr "list"] = Ok (VList items) →
     (i < 5)%nat → items !! i = Some item →
     rounds item [KStr "main"; KStr "temp"]
            out [KStr "forecast"; KIdx (Z.of_nat i); KStr "temperature"] ∧
     rounds item [KStr "main"; KStr "feels_like"]
            out [KStr "forecast"; KIdx (Z.of_nat i); KStr "feels_like"] ∧
     rounds item [KStr "wind"; KStr "speed"]
            out [KStr "forecast"; KIdx (Z.of_nat i); KStr "details"; KStr "wind_speed"]).
Proof.
  split.
  - intros data out Hok. apply succeeds_current in Hok. by eapply weather_data_rounded.
  - intros data out items i item Hok Hlist Hi Hitem.
    apply succeeds_forecast in Hok.
    destruct (forecast_data_entries _ _ _ _ Hok Hlist) as (entries & Hf & Hall).
    assert (Htake : take 5 items !! i = Some item) by by rewrite lookup_take_lt.
    destruct (Forall2_lookup_l _ _ _ _ _ Hall Htake) as (entry & Hentry & Hbuilt).
    destruct (forecast_entry_rounded _ _ Hbuilt) as (Ht & Hfl & Hw).
    unfold rounds. rewrite !(path_cons _ _ _ _ Hf), !(path_index _ _ _ _ Hentry).
    done.
Qed.

(** C8. When the provider's [list] has [n] entries, the [forecast] of a 200
    reply has [min n 5] entries, never more than five, and its entry [i] is
    built from the provider's entry [i]. *)
Theorem forecast_at_most_five (p : provider) (args : query_args) (data out : value)
    (items : list value) :
  succeeds_with p (get_forecast api_key wording args) data out →
  path data [KStr "list"] = Ok (VList items) →
  ∃ entries,
    path out [KStr "forecast"] = Ok (VList entries) ∧
    length entries = Nat.min (length items) 5 ∧
    (length entries <= 5)%nat ∧
    (∀ i entry, entries !! i = Some entry →
       ∃ item, items !! i = Some item ∧ forecast_entry item = Ok entry).
Proof.
  intros Hok Hlist. apply succeeds_forecast in Hok.
  destruct (forecast_data_entries _ _ _ _ Hok Hlist) as (entries & Hf & Hall).
  exists entries. pose proof (Forall2_length _ _ _ Hall) as Hlen.
  rewrite length_take in Hlen.
  split; [ exact Hf | ]. split; [ lia | ]. split; [ lia | ].
  intros i entry Hentry.
  destruct (Forall2_lookup_r _ _ _ _ _ Hall Hentry) as (item & Hitem & Hbuilt).
  exists item. split; [ | exact Hbuilt ].
  apply lookup_take_Some in Hitem. tauto.
Qed.

Lemma raise_for_status_error (response : Response) :
  (400 <= status_code response < 600)%Z →
  raise_for_status response = Err (RequestException (http_error_message response)).
Proof.
  intros Hcode. unfold raise_for_status, http_error_message.
  destruct (Z.ltb_spec (status_code response) 500) as [Hlt|Hge].
  - destruct (Z.leb_spec 400 (status_code response)); [ reflexivity | lia ].
  - rewrite andb_false_r.
    destruct (Z.leb_spec 500 (status_code response)); [ | lia ].
    destruct (Z.ltb_spec (status_code response) 600); [ reflexivity | lia ].
Qed.

(** C9, as amended. When the provider answers the current-weather request
    with a status from 400 to 599, the reply is a 500 whose [error] is the
    request-failure prefix followed by the message of the [HTTPError]; the
    provider's status is not the status of the reply. *)
Theorem provider_http_error_is_500 (p : provider) (args : query_args) (response : Response)
    (r : reply) :
  answered_by p (get_current_weather api_key wording args) (Ok response) r →
  (400 <= status_code response < 600)%Z →
  r = {| status := 500;
         body := VDict {[ "error" := VStr ("Weather API request failed: "
                                           +:+ http_error_message response) ]} |}.
Proof.
  intros Hans Hcode. apply answered_by_current in Hans. subst r.
  unfold current_weather_reply. cbn [mbind result_bind].
  rewrite (raise_for_status_error _ Hcode). reflexivity.
Qed.

End Weather.

(** ** The claims at concrete inputs *)

(** The scenario of a request for London in metric units: one outbound call
    with the composite location, the credential and the units; the reply
    carries the rounded temperature and the symbol of the icon. *)
Example london_metric_scenario :
  let args := [("city", "London"); ("country", "UK"); ("units", "metric")] in
  let '(r, calls) :=
    run (always (Ok (response_with 200 "OK" london)))
        (get_current_weather placeholder_key cpython_wording args) in
  calls = [("http://api.openweathermap.org/data/2.5/weather",
            {[ "q" := PStr "London,UK"; "appid" := PStr placeholder_key;
               "units" := PStr "metric" ]})] ∧
  status r = 200%Z ∧
  path (body r) [KStr "temperature"; KStr "current"] = Ok (VFloat (float_of_ratio 15 1)) ∧
  path (body r) [KStr "weather"; KStr "icon_class"] = Ok (VStr "sun") ∧
  path (body r) [KStr "details"; KStr "humidity"] = Ok (VInt 80) ∧
  r = current_reply_to (response_with 200 "OK" london) [].
Proof. vm_compute. repeat split; reflexivity. Qed.

(** With [units=standard] no [units] parameter is sent. *)
Example standard_units_are_not_sent :
  snd (run (always (Ok (response_with 200 "OK" london)))
           (get_current_weather placeholder_key cpython_wording [("units", "standard")]))
  = [("http://api.openweathermap.org/data/2.5/weather",
      {[ "q" := PStr "London,UK"; "appid" := PStr placeholder_key ]})].
Proof. vm_compute. reflexivity. Qed.

(** A body without [name] is reported by the [KeyError] clause. *)
Example missing_field_reply :
  current_reply_to (response_with 200 "OK" (VDict {[ "cod" := VInt 200 ]})) []
  = {| status := 500;
       body := VDict {[ "error" := VStr "Invalid response format from weather API: 'name'" ]} |}.
Proof. vm_compute. reflexivity. Qed.

Lemma sample_current_succeeds (code : Z) (phrase : string) (data : value) (args : query_args) :
  status (current_reply_to (response_with code phrase data) args) = 200%Z →
  succeeds_with (always (Ok (response_with code phrase data)))
                (get_current_weather placeholder_key cpython_wording args)
                data (body (current_reply_to (response_with code phrase data) args)).
Proof.
  intros H200. exists (response_with code phrase data). split; [ | reflexivity ].
  destruct (get_current_weather_run placeholder_key cpython_wording
              (always (Ok (response_with code phrase data))) args)
    as (target & params & Hrun).
  exists target, params. split; [ | reflexivity ].
  rewrite Hrun. f_equal. unfold current_reply_to in *. rewrite Hrun in *. cbn [fst] in *.
  destruct (current_weather_reply _ _ _); cbn in *. by subst.
Qed.

Lemma sample_forecast_succeeds (code : Z) (phrase : string) (data : value) (args : query_args) :
  status (forecast_reply_to (response_with code phrase data) args) = 200%Z →
  succeeds_with (always (Ok (response_with code phrase data)))
                (get_forecast placeholder_key cpython_wording args)
                data (body (forecast_reply_to (response_with code phrase data) args)).
Proof.
  intros H200. exists (response_with code phrase data). split; [ | reflexivity ].
  destruct (get_forecast_run placeholder_key cpython_wording
              (always (Ok (response_with code phrase data))) args)
    as (target & params & Hrun).
  exists target, params. split; [ | reflexivity ].
  rewrite Hrun. f_equal. unfold forecast_reply_to in *. rewrite Hrun in *. cbn [fst] in *.
  destruct (forecast_reply _ _ _); cbn in *. by subst.
Qed.

(** The float literal of [app.py] is the float nearest to 1609.34. *)
Lemma float_1609_34_nearest : float_1609_34 = float_of_ratio 160934 100.
Proof. vm_compute. reflexivity. Qed.

(** C2, as stated, fails: the characters after the first are lower-cased. *)
Lemma description_rest_is_lowered :
  path (body (current_reply_to
                (response_with 200 "OK" (sample_weather (VStr "light RAIN") (Some (VInt 10000))))
                []))
       [KStr "weather"; KStr "description"]
  = Ok (VStr "Light rain") ∧
  capitalize_first_only "light RAIN" = "Light RAIN" ∧
  "Light rain" ≠ capitalize_first_only "light RAIN".
Proof.
  split; [ vm_compute; reflexivity | ].
  split; [ vm_compute; reflexivity | vm_compute; discriminate ].
Qed.

Lemma description_capitalized_witness :
  path (body (current_reply_to
                (response_with 200 "OK"
                   (sample_weather (VStr "éclaircies ET Pluie") (Some (VInt 10000))))
                []))
       [KStr "weather"; KStr "description"]
  = Ok (VStr "Éclaircies et pluie") ∧
  path (body (forecast_reply_to (response_with 200 "OK" (sample_forecast seven_items)) []))
       [KStr "forecast"; KIdx 3; KStr "weather"; KStr "description"]
  = Ok (VStr "Heavy intensity rain").
Proof.
  split.
  - etrans;
      [ apply (proj1 (description_capitalized placeholder_key cpython_wording
                        (always (Ok (response_with 200 "OK"
                           (sample_weather (VStr "éclaircies ET Pluie")
                                           (Some (VInt 10000))))))
                        [])
                     (sample_weather (VStr "éclaircies ET Pluie") (Some (VInt 10000))) _
                     "éclaircies ET Pluie"
                     ltac:(apply sample_current_succeeds; vm_compute; reflexivity)
                     ltac:(vm_compute; reflexivity))
      | vm_compute; reflexivity ].
  - etrans;
      [ apply (proj1 (proj2 (description_capitalized placeholder_key cpython_wording
                        (always (Ok (response_with 200 "OK" (sample_forecast seven_items))))
                        [])
                     (sample_forecast seven_items) _ seven_items 3%nat
                     (sample_item "2024-01-01 09:00:00" "heavy intensity rain" 1444)
                     "heavy intensity rain"
                     ltac:(apply sample_forecast_succeeds; vm_compute; reflexivity)
                     ltac:(vm_compute; reflexivity) ltac:(lia) ltac:(reflexivity)
                     ltac:(vm_compute; reflexivity)))
      | vm_compute; reflexivity ].
Defined.

(** C3. For [units=metric] the unit label of the reply is the six bytes that
    the literal has in [app.py] (the characters U+00AC, U+221E and [C]), not
    the degree sign followed by [C]; for any other [units] it is the same
    two characters followed by [F]. *)
Theorem unit_label_is_not_degree_sign :
  path (body (current_reply_to (response_with 200 "OK" london) [("units", "metric")]))
       [KStr "temperature"; KStr "unit"]
  = Ok (VStr label_metric) ∧
  path (body (current_reply_to (response_with 200 "OK" london) [("units", "imperial")]))
       [KStr "temperature"; KStr "unit"]
  = Ok (VStr label_other) ∧
  label_metric ≠ "°C" ∧ label_other ≠ "°F" ∧
  len label_metric = 3%nat ∧ len "°C" = 2%nat ∧
  nat_of_ascii <$> list_ascii_of_string label_metric = [194; 172; 226; 136; 158; 67]%nat.
Proof.
  split; [ vm_compute; reflexivity | ].
  split; [ vm_compute; reflexivity | ].
  split; [ discriminate | ].
  split; [ discriminate | ].
  repeat split; vm_compute; reflexivity.
Qed.

Lemma visibility_conversion_witness :
  path (body (current_reply_to (response_with 200 "OK" london) [("units", "imperial")]))
       [KStr "details"; KStr "visibility"]
  = Ok (VFloat float_6_2) ∧
  path (body (current_reply_to (response_with 200 "OK" (sample_weather (VStr "mist") None)) []))
       [KStr "details"; KStr "visibility"]
  = Ok (VFloat float_10_0).
Proof.
  split.
  - destruct (visibility_conversion placeholder_key cpython_wording
                (always (Ok (response_with 200 "OK" london))) [("units", "imperial")]
                london _
                ltac:(apply sample_current_succeeds; vm_compute; reflexivity))
      as (m & q & Hm & _ & Hout & _ & H10000).
    rewrite Hout. injection Hm as <-. rewrite H10000; [ reflexivity | ].
    vm_compute. reflexivity.
  - destruct (visibility_conversion placeholder_key cpython_wording
                (always (Ok (response_with 200 "OK" (sample_weather (VStr "mist") None)))) []
                (sample_weather (VStr "mist") None) _
                ltac:(apply sample_current_succeeds; vm_compute; reflexivity))
      as (m & q & Hm & _ & Hout & _ & H10000).
    rewrite Hout. injection Hm as <-. rewrite H10000; [ reflexivity | ].
    vm_compute. reflexivity.
Defined.

Lemma temperatures_and_speeds_rounded_witness :
  rounds london [KStr "main"; KStr "temp"]
         (body (current_reply_to (response_with 200 "OK" london) []))
         [KStr "temperature"; KStr "current"] ∧
  rounds (sample_item "2024-01-01 06:00:00" "light rain" 1333) [KStr "main"; KStr "temp"]
         (body (forecast_reply_to (response_with 200 "OK" (sample_forecast seven_items)) []))
         [KStr "forecast"; KIdx 2; KStr "temperature"].
Proof.
  split.
  - apply (proj1 (temperatures_and_speeds_rounded placeholder_key cpython_wording
                    (always (Ok (response_with 200 "OK" london))) [])
                 london _
                 ltac:(apply sample_current_succeeds; vm_compute; reflexivity)).
  - apply (proj2 (temperatures_and_speeds_rounded placeholder_key cpython_wording
                    (always (Ok (response_with 200 "OK" (sample_forecast seven_items)))) [])
                 (sample_forecast seven_items) _ seven_items 2%nat
                 (sample_item "2024-01-01 06:00:00" "light rain" 1333)
                 ltac:(apply sample_forecast_succeeds; vm_compute; reflexivity)
                 ltac:(vm_compute; reflexivity) ltac:(lia) ltac:(reflexivity)).
Defined.

Lemma forecast_at_most_five_witness :
  ∃ entries,
    path (body (forecast_reply_to (response_with 200 "OK" (sample_forecast seven_items)) []))
         [KStr "forecast"]
    = Ok (VList entries) ∧
    length entries = 5%nat.
Proof.
  destruct (forecast_at_most_five placeholder_key cpython_wording
              (always (Ok (response_with 200 "OK" (sample_forecast seven_items)))) []
              (sample_forecast seven_items) _ seven_items
              ltac:(apply sample_forecast_succeeds; vm_compute; reflexivity)
              ltac:(vm_compute; reflexivity))
    as (entries & Hf & Hlen & _).
  exists entries. split; [ exact Hf | exact Hlen ].
Defined.

(** C9, as stated, fails: a status outside 200..299 that is no HTTP error
    for [raise_for_status] goes through the success path. *)
Lemma status_300_is_not_an_error :
  ¬ (200 <= status_code (response_with 300 "Multiple Choices" london) < 300)%Z ∧
  status (current_reply_to (response_with 300 "Multiple Choices" london) []) = 200%Z ∧
  answered_by (always (Ok (response_with 300 "Multiple Choices" london)))
              (get_current_weather placeholder_key cpython_wording [])
              (Ok (response_with 300 "Multiple Choices" london))
              (current_reply_to (response_with 300 "Multiple Choices" london) []).
Proof.
  split; [ cbn; lia | ]. split; [ vm_compute; reflexivity | ].
  destruct (get_current_weather_run placeholder_key cpython_wording
              (always (Ok (response_with 300 "Multiple Choices" london))) [])
    as (target & params & Hrun).
  exists target, params. unfold current_reply_to. rewrite Hrun. by split.
Qed.

Lemma provider_http_error_is_500_witness :
  current_reply_to (response_with 404 "Not Found" (VDict {[ "cod" := VStr "404" ]})) []
  = {| status := 500;
       body := VDict {[ "error" := VStr
         "Weather API request failed: 404 Client Error: Not Found for url: http://api.openweathermap.org/data/2.5/weather?q=London%2CUK&appid=your_api_key_here&units=metric" ]} |}.
Proof.
  rewrite (provider_http_error_is_500 placeholder_key cpython_wording
             (always (Ok (response_with 404 "Not Found" (VDict {[ "cod" := VStr "404" ]})))) []
             (response_with 404 "Not Found" (VDict {[ "cod" := VStr "404" ]}))
             (current_reply_to (response_with 404 "Not Found" (VDict {[ "cod" := VStr "404" ]})) [])).
  - vm_compute. reflexivity.
  - destruct (get_current_weather_run placeholder_key cpython_wording
                (always (Ok (response_with 404 "Not Found" (VDict {[ "cod" := VStr "404" ]})))) [])
      as (target & params & Hrun).
    exists target, params. unfold current_reply_to. rewrite Hrun. by split.
  - cbn. lia.
Defined.

(** * Further properties of the handlers *)

(** ** The outbound requests *)

Section Requests.

Variable api_key : string.
Variable wording : builtin_error → string.

(** X1. [get_current_weather] sends one request to the weather endpoint: [q]
    is the city and the country joined by a comma, with London and UK as
    defaults, [appid] is the credential, and [units] is sent unless it is
    [standard]; nothing else is sent. *)
Theorem current_weather_request (p : provider) (args : query_args) :
  ∃ params : gmap string param,
    snd (run p (get_current_weather api_key wording args))
    = [("http://api.openweathermap.org/data/2.5/weather", params)] ∧
    params !! "q"
    = Some (PStr (default "London" (args_get args "city") +:+ ","
                  +:+ default "UK" (args_get args "country"))) ∧
    params !! "appid" = Some (PStr api_key) ∧
    params !! "units"
    = (if String.eqb (units_of args) "standard" then None else Some (PStr (units_of args))) ∧
    dom params ⊆ {[ "q"; "appid"; "units" ]}.
Proof.
  eexists. split; [ reflexivity | ].
  unfold add_units. fold (units_of args).
  destruct (String.eqb (units_of args) "standard"); cbn [negb].
  - repeat split; [ reflexivity .. | apply (bool_decide_unpack _); vm_compute; exact I ].
  - repeat split; [ reflexivity .. | apply (bool_decide_unpack _); vm_compute; exact I ].
Qed.

(** X2. [get_forecast] sends the same parameters to the forecast endpoint,
    with the count limit [cnt] of five. *)
Theorem forecast_request (p : provider) (args : query_args) :
  ∃ params : gmap string param,
    snd (run p (get_forecast api_key wording args))
    = [("http://api.openweathermap.org/data/2.5/forecast", params)] ∧
    params !! "q"
    = Some (PStr (default "London" (args_get args "city") +:+ ","
                  +:+ default "UK" (args_get args "country"))) ∧
    params !! "appid" = Some (PStr api_key) ∧
    params !! "cnt" = Some (PInt 5) ∧
    params !! "units"
    = (if String.eqb (units_of args) "standard" then None else Some (PStr (units_of args))) ∧
    dom params ⊆ {[ "q"; "appid"; "cnt"; "units" ]}.
Proof.
  eexists. split; [ reflexivity | ].
  unfold add_units. fold (units_of args).
  destruct (String.eqb (units_of args) "standard"); cbn [negb].
  - repeat split; [ reflexivity .. | apply (bool_decide_unpack _); vm_compute; exact I ].
  - repeat split; [ reflexivity .. | apply (bool_decide_unpack _); vm_compute; exact I ].
Qed.

(** X3. No handler calls the provider twice, whatever it answers: the two
    weather handlers make exactly one call, the two location handlers at
    most one. *)
Theorem at_most_one_call (p : provider) (args : query_args) :
  length (snd (run p (get_current_weather api_key wording args))) = 1%nat ∧
  length (snd (run p (get_forecast api_key wording args))) = 1%nat ∧
  (length (snd (run p (search_location api_key wording args))) <= 1)%nat ∧
  (length (snd (run p (reverse_geocode api_key wording args))) <= 1)%nat.
Proof.
  split; [ reflexivity | ]. split; [ reflexivity | ]. split.
  - unfold search_location.
    destruct (String.eqb _ "" || (len _ <? 2)%nat); cbn; lia.
  - unfold reverse_geocode.
    destruct (args_get args "lat") as [lat|], (args_get args "lon") as [lon|]; cbn; try lia.
    destruct (String.eqb lat "" || String.eqb lon ""); cbn; lia.
Qed.

End Requests.

(** ** Replies of the weather handlers *)

Lemma raise_for_status_passes (response : Response) :
  passes response → raise_for_status response = Ok ().
Proof.
  unfold passes, raise_for_status. intros Hcode.
  destruct (Z.leb_spec 400 (status_code response)), (Z.ltb_spec (status_code response) 500),
    (Z.leb_spec 500 (status_code response)), (Z.ltb_spec (status_code response) 600);
    cbn; first [ reflexivity | lia ].
Qed.

Lemma weather_data_shape units data out :
  weather_data units data = Ok out →
  ∃ m : gmap string value,
    out = VDict m ∧
    dom m = {[ "location"; "temperature"; "weather"; "details"; "system" ]}.
Proof.
  intros H. weather_fields H. eexists. split; [ reflexivity | ].
  apply (bool_decide_unpack _). vm_compute. exact I.
Qed.

Lemma forecast_data_shape units data out :
  forecast_data units data = Ok out →
  ∃ m : gmap string value,
    out = VDict m ∧ dom m = {[ "location"; "forecast"; "units" ]}.
Proof.
  intros H. unfold forecast_data in H. peel H. injection H as <-.
  eexists. split; [ reflexivity | ].
  apply (bool_decide_unpack _). vm_compute. exact I.
Qed.

Lemma error_reply_500 (message : string) :
  status (with_status (error_body message) 500) = 500%Z ∧
  error_only (with_status (error_body message) 500).
Proof. split; [ reflexivity | by exists message ]. Qed.

Section Classification.

Variable api_key : string.
Variable wording : builtin_error → string.

Lemma current_weather_reply_cases units outcome :
  (status (current_weather_reply wording units outcome) = 200%Z ∧
   ∃ data, weather_data units data
           = Ok (body (current_weather_reply wording units outcome))) ∨
  (status (current_weather_reply wording units outcome) = 500%Z ∧
   error_only (current_weather_reply wording units outcome)).
Proof.
  unfold current_weather_reply.
  destruct outcome as [response|e]; [ | right; destruct e; apply error_reply_500 ].
  cbn [mbind result_bind].
  destruct (raise_for_status response) as [[]|e];
    [ | right; destruct e; apply error_reply_500 ].
  cbn [mbind result_bind].
  destruct (json response) as [data|e]; [ | right; destruct e; apply error_reply_500 ].
  cbn [mbind result_bind].
  destruct (weather_data units data) as [wd|e] eqn:Hwd;
    [ | right; destruct e; apply error_reply_500 ].
  left. split; [ reflexivity | by exists data ].
Qed.

Lemma forecast_reply_cases units outcome :
  (status (forecast_reply wording units outcome) = 200%Z ∧
   ∃ data, forecast_data units data = Ok (body (forecast_reply wording units outcome))) ∨
  (status (forecast_reply wording units outcome) = 500%Z ∧
   error_only (forecast_reply wording units outcome)).
Proof.
  unfold forecast_reply.
  destruct outcome as [response|e]; [ | right; apply error_reply_500 ].
  cbn [mbind result_bind].
  destruct (raise_for_status response) as [[]|e]; [ | right; apply error_reply_500 ].
  cbn [mbind result_bind].
  destruct (json response) as [data|e]; [ | right; apply error_reply_500 ].
  cbn [mbind result_bind].
  destruct (forecast_data units data) as [wd|e] eqn:Hwd; [ | right; apply error_reply_500 ].
  left. split; [ reflexivity | by exists data ].
Qed.

(** X4. A weather handler replies either 200 with the full report (the five
    sections of the current weather, or location, forecast and units) or 500
    with a body that holds the [error] message and nothing else: an error is
    never mixed with partial data, and no other status is used. *)
Theorem weather_replies_are_whole (p : provider) (args : query_args) :
  ((status (fst (run p (get_current_weather api_key wording args))) = 200%Z ∧
    ∃ m : gmap string value,
      body (fst (run p (get_current_weather api_key wording args))) = VDict m ∧
      dom m = {[ "location"; "temperature"; "weather"; "details"; "system" ]}) ∨
   (status (fst (run p (get_current_weather api_key wording args))) = 500%Z ∧
    error_only (fst (run p (get_current_weather api_key wording args))))) ∧
  ((status (fst (run p (get_forecast api_key wording args))) = 200%Z ∧
    ∃ m : gmap string value,
      body (fst (run p (get_forecast api_key wording args))) = VDict m ∧
      dom m = {[ "location"; "forecast"; "units" ]}) ∨
   (status (fst (run p (get_forecast api_key wording args))) = 500%Z ∧
    error_only (fst (run p (get_forecast api_key wording args))))).
Proof.
  split.
  - destruct (get_current_weather_run api_key wording p args) as (target & params & ->).
    cbn [fst].
    destruct (current_weather_reply_cases (units_of args) (p target params))
      as [(H200 & data & Hwd)|H500]; [ left | by right ].
    split; [ exact H200 | by eapply weather_data_shape ].
  - destruct (get_forecast_run api_key wording p args) as (target & params & ->).
    cbn [fst].
    destruct (forecast_reply_cases (units_of args) (p target params))
      as [(H200 & data & Hwd)|H500]; [ left | by right ].
    split; [ exact H200 | by eapply forecast_data_shape ].
Qed.

(** X5. When the request itself fails with a [RequestException], at the
    call or while the body is decoded, [get_current_weather] replies 500 with
    the request-failure prefix followed by the text of the exception. *)
Theorem transport_failure_is_500 (p : provider) (args : query_args) (message : string)
    (r : reply) :
  (answered_by p (get_current_weather api_key wording args) (Err (RequestException message)) r ∨
   ∃ response,
     answered_by p (get_current_weather api_key wording args) (Ok response) r ∧
     passes response ∧ json response = Err (RequestException message)) →
  r = {| status := 500;
         body := VDict {[ "error" := VStr ("Weather API request failed: " +:+ message) ]} |}.
Proof.
  intros [Hans|(response & Hans & Hpass & Hjson)];
    apply answered_by_current in Hans; subst r; unfold current_weather_reply.
  - reflexivity.
  - cbn [mbind result_bind]. rewrite (raise_for_status_passes _ Hpass).
    cbn [mbind result_bind]. rewrite Hjson. reflexivity.
Qed.

(** X6. When the provider's JSON object has no [name], the reply is the 500
    of the [KeyError] clause, and its message names the key. *)
Theorem missing_name_is_invalid_format (p : provider) (args : query_args)
    (response : Response) (m : gmap string value) (r : reply) :
  answered_by p (get_current_weather api_key wording args) (Ok response) r →
  passes response →
  json response = Ok (VDict m) →
  m !! "name" = None →
  r = {| status := 500;
         body := VDict {[ "error" :=
                   VStr "Invalid response format from weather API: 'name'" ]} |}.
Proof.
  intros Hans Hpass Hjson Hname. apply answered_by_current in Hans. subst r.
  unfold current_weather_reply. cbn [mbind result_bind].
  rewrite (raise_for_status_passes _ Hpass). cbn [mbind result_bind]. rewrite Hjson.
  cbn [mbind result_bind]. unfold weather_data. cbn [path subscript].
  rewrite Hname. reflexivity.
Qed.

(** X7. A JSON body that is not an object (null, a number, a string, a list)
    is reported by the last [except] clause, as an unexpected error, not as
    an invalid response format. *)
Theorem non_object_body_is_unexpected (p : provider) (args : query_args)
    (response : Response) (data : value) (r : reply) :
  answered_by p (get_current_weather api_key wording args) (Ok response) r →
  passes response →
  json response = Ok data →
  (∀ m, data ≠ VDict m) →
  ∃ b, r = {| status := 500;
              body := VDict {[ "error" := VStr ("Unexpected error: " +:+ wording b) ]} |}.
Proof.
  intros Hans Hpass Hjson Hdata. apply answered_by_current in Hans. subst r.
  unfold current_weather_reply. cbn [mbind result_bind].
  rewrite (raise_for_status_passes _ Hpass). cbn [mbind result_bind]. rewrite Hjson.
  cbn [mbind result_bind]. unfold weather_data. cbn [path subscript].
  destruct data as [ | | | | | |m]; try (eexists; reflexivity).
  by destruct (Hdata m).
Qed.

(** X8. A 200 reply of [get_current_weather] needs the provider's object to
    have [name], [sys], [coord], [main], [weather], [wind], [clouds] and
    [timezone]; [visibility] is not among the required keys. *)
Theorem required_top_level_fields (p : provider) (args : query_args) (data out : value) :
  succeeds_with p (get_current_weather api_key wording args) data out →
  ∃ m : gmap string value,
    data = VDict m ∧
    Forall (λ k, is_Some (m !! k))
           ["name"; "sys"; "coord"; "main"; "weather"; "wind"; "clouds"; "timezone"].
Proof.
  intros Hok. apply succeeds_current in Hok. weather_fields Hok.
  destruct data as [ | | | | | |m]; try discriminate.
  exists m. split; [ reflexivity | ].
  repeat match goal with
         | E : path (VDict m) (KStr ?k :: _) = Ok _ |- _ =>
             assert (is_Some (m !! k))
               by (cbn [path subscript] in E; destruct (m !! k); [ by eexists | discriminate ]);
             clear E
         end.
  repeat constructor; assumption.
Qed.

End Classification.

Lemma answered_by_always_current api_key wording (outcome : result Response) args :
  answered_by (always outcome) (get_current_weather api_key wording args) outcome
              (current_weather_reply wording (units_of args) outcome).
Proof.
  destruct (get_current_weather_run api_key wording (always outcome) args)
    as (target & params & Hrun).
  by exists target, params.
Qed.

Lemma answered_by_always_forecast api_key wording (outcome : result Response) args :
  answered_by (always outcome) (get_forecast api_key wording args) outcome
              (forecast_reply wording (units_of args) outcome).
Proof.
  destruct (get_forecast_run api_key wording (always outcome) args)
    as (target & params & Hrun).
  by exists target, params.
Qed.

Lemma transport_failure_is_500_witness :
  current_weather_reply cpython_wording (units_of [])
                        (Err (RequestException "Connection refused"))
  = {| status := 500;
       body := VDict {[ "error" := VStr "Weather API request failed: Connection refused" ]} |}.
Proof.
  apply (transport_failure_is_500 placeholder_key cpython_wording
           (always (Err (RequestException "Connection refused"))) [] "Connection refused").
  left. apply answered_by_always_current.
Defined.

Lemma missing_name_is_invalid_format_witness :
  current_weather_reply cpython_wording (units_of [])
                        (Ok (response_with 200 "OK" (VDict {[ "cod" := VInt 200 ]})))
  = {| status := 500;
       body := VDict {[ "error" :=
                 VStr "Invalid response format from weather API: 'name'" ]} |}.
Proof.
  apply (missing_name_is_invalid_format placeholder_key cpython_wording
           (always (Ok (response_with 200 "OK" (VDict {[ "cod" := VInt 200 ]})))) []
           (response_with 200 "OK" (VDict {[ "cod" := VInt 200 ]})) {[ "cod" := VInt 200 ]}).
  - apply answered_by_always_current.
  - unfold passes. cbn. lia.
  - reflexivity.
  - reflexivity.
Defined.

Lemma non_object_body_is_unexpected_witness :
  ∃ b,
    current_weather_reply cpython_wording (units_of [])
                          (Ok (response_with 200 "OK" (VList [])))
    = {| status := 500;
         body := VDict {[ "error" := VStr ("Unexpected error: " +:+ cpython_wording b) ]} |}.
Proof.
  apply (non_object_body_is_unexpected placeholder_key cpython_wording
           (always (Ok (response_with 200 "OK" (VList [])))) []
           (response_with 200 "OK" (VList [])) (VList [])).
  - apply answered_by_always_current.
  - unfold passes. cbn. lia.
  - reflexivity.
  - discriminate.
Defined.

Lemma required_top_level_fields_witness :
  ∃ m : gmap string value,
    london = VDict m ∧
    Forall (λ k, is_Some (m !! k))
           ["name"; "sys"; "coord"; "main"; "weather"; "wind"; "clouds"; "timezone"].
Proof.
  apply (required_top_level_fields placeholder_key cpython_wording
           (always (Ok (response_with 200 "OK" london))) [] london
           (body (current_reply_to (response_with 200 "OK" london) []))).
  apply sample_current_succeeds. vm_compute. reflexivity.
Defined.

(** ** Fields of the current-weather report *)

Lemma get_weather_icon_in_symbols (code : string) : get_weather_icon code ∈ symbols.
Proof.
  unfold get_weather_icon.
  destruct (icon_map !! code) as [sym|] eqn:Hl; cbn [default]; [ | by repeat constructor ].
  apply icon_map_lookup_Some in Hl as (c & p & _ & ->).
  destruct c, p; by repeat constructor.
Qed.

Lemma get_weather_icon_of_in_symbols (icon out : value) :
  get_weather_icon_of icon = Ok out →
  ∃ sym, out = VStr sym ∧ sym ∈ symbols ∧ ∀ code, icon = VStr code → sym = get_weather_icon code.
Proof.
  destruct icon as [ |b|z|f|s|l|m]; try discriminate; intros [= <-].
  all: eexists; split; [ reflexivity | ]; split;
    [ first [ apply get_weather_icon_in_symbols | by repeat constructor ] | ].
  all: by intros code [= ->].
Qed.

Ltac copied_field :=
  match goal with
  | |- _ = path ?d ?ks =>
      match goal with
      | E : path d ks = Ok _ |- _ => rewrite E; reflexivity
      end
  end.

Section Fields.

Variable api_key : string.
Variable wording : builtin_error → string.

(** X9. In a 200 reply of [get_current_weather] the city, the country, the
    coordinates, the condition and its icon code, the humidity, the
    pressure, the cloudiness, the sunrise, the sunset and the timezone are the
    provider's values, unchanged. *)
Theorem current_weather_copies_fields (p : provider) (args : query_args) (data out : value) :
  succeeds_with p (get_current_weather api_key wording args) data out →
  path out [KStr "location"; KStr "city"] = path data [KStr "name"] ∧
  path out [KStr "location"; KStr "country"] = path data [KStr "sys"; KStr "country"] ∧
  path out [KStr "location"; KStr "coordinates"; KStr "lat"]
  = path data [KStr "coord"; KStr "lat"] ∧
  path out [KStr "location"; KStr "coordinates"; KStr "lon"]
  = path data [KStr "coord"; KStr "lon"] ∧
  path out [KStr "weather"; KStr "main"] = path data [KStr "weather"; KIdx 0; KStr "main"] ∧
  path out [KStr "weather"; KStr "icon"] = path data [KStr "weather"; KIdx 0; KStr "icon"] ∧
  path out [KStr "details"; KStr "humidity"] = path data [KStr "main"; KStr "humidity"] ∧
  path out [KStr "details"; KStr "pressure"] = path data [KStr "main"; KStr "pressure"] ∧
  path out [KStr "details"; KStr "cloudiness"] = path data [KStr "clouds"; KStr "all"] ∧
  path out [KStr "system"; KStr "sunrise"] = path data [KStr "sys"; KStr "sunrise"] ∧
  path out [KStr "system"; KStr "sunset"] = path data [KStr "sys"; KStr "sunset"] ∧
  path out [KStr "system"; KStr "timezone"] = path data [KStr "timezone"].
Proof.
  intros Hok. apply succeeds_current in Hok. weather_fields Hok.
  repeat split; copied_field.
Qed.

(** X10. The wind direction of a 200 reply is the provider's [deg], and 0
    when the provider's [wind] has no [deg]. *)
Theorem wind_direction_defaults_to_zero (p : provider) (args : query_args) (data out : value) :
  succeeds_with p (get_current_weather api_key wording args) data out →
  ∃ wind : gmap string value,
    path data [KStr "wind"] = Ok (VDict wind) ∧
    path out [KStr "details"; KStr "wind_deg"] = Ok (default (VInt 0) (wind !! "deg")).
Proof.
  intros Hok. apply succeeds_current in Hok. weather_fields Hok.
  match goal with
  | E : path data [KStr "wind"] = Ok ?a, E' : get ?a "deg" _ = Ok _ |- _ =>
      destruct a as [ | | | | | |wind]; try discriminate;
      injection E' as <-; exists wind; split; [ exact E | reflexivity ]
  end.
Qed.

(** X11. The [icon_class] of a 200 reply is always one of the nine symbols;
    it is [get_weather_icon] of the provider's icon code when that is a
    string. *)
Theorem icon_class_is_a_symbol (p : provider) (args : query_args) (data out : value) :
  succeeds_with p (get_current_weather api_key wording args) data out →
  ∃ sym,
    path out [KStr "weather"; KStr "icon_class"] = Ok (VStr sym) ∧
    sym ∈ symbols ∧
    ∀ code, path data [KStr "weather"; KIdx 0; KStr "icon"] = Ok (VStr code) →
            sym = get_weather_icon code.
Proof.
  intros Hok. apply succeeds_current in Hok. weather_fields Hok.
  match goal with
  | E : path data [KStr "weather"; KIdx 0%Z; KStr "icon"] = Ok ?a,
    E' : get_weather_icon_of ?a = Ok _ |- _ =>
      destruct (get_weather_icon_of_in_symbols _ _ E') as (sym & -> & Hin & Hcode);
      exists sym; split; [ reflexivity | ]; split; [ exact Hin | ];
      intros code Hicon; rewrite Hicon in E; injection E as <-; by apply Hcode
  end.
Qed.

End Fields.

Lemma current_weather_copies_fields_witness :
  path (body (current_reply_to (response_with 200 "OK" london) []))
       [KStr "location"; KStr "city"]
  = Ok (VStr "London").
Proof.
  rewrite (proj1 (current_weather_copies_fields placeholder_key cpython_wording
                    (always (Ok (response_with 200 "OK" london))) [] london _
                    ltac:(apply sample_current_succeeds; vm_compute; reflexivity))).
  vm_compute. reflexivity.
Defined.

Lemma wind_direction_defaults_to_zero_witness :
  ∃ wind : gmap string value,
    path london [KStr "wind"] = Ok (VDict wind) ∧
    path (body (current_reply_to (response_with 200 "OK" london) []))
         [KStr "details"; KStr "wind_deg"]
    = Ok (default (VInt 0) (wind !! "deg")).
Proof.
  apply (wind_direction_defaults_to_zero placeholder_key cpython_wording
           (always (Ok (response_with 200 "OK" london))) [] london).
  apply sample_current_succeeds. vm_compute. reflexivity.
Defined.

Lemma icon_class_is_a_symbol_witness :
  ∃ sym,
    path (body (current_reply_to (response_with 200 "OK" london) []))
         [KStr "weather"; KStr "icon_class"]
    = Ok (VStr sym) ∧
    sym ∈ symbols.
Proof.
  destruct (icon_class_is_a_symbol placeholder_key cpython_wording
              (always (Ok (response_with 200 "OK" london))) [] london _
              ltac:(apply sample_current_succeeds; vm_compute; reflexivity))
    as (sym & Hsym & Hin & _).
  exists sym. by split.
Defined.

(** ** The forecast *)

Lemma mapM_Err_first {A B} (f : A → result B) (l : list A) (i : nat) (x : A) (e : exn) :
  l !! i = Some x →
  f x = Err e →
  (∀ j y, (j < i)%nat → l !! j = Some y → ∃ b, f y = Ok b) →
  mapM f l = Err e.
Proof.
  revert i. induction l as [|a l IH]; intros i Hx Hf Hbefore; [ done | ].
  cbn [mapM]. destruct i as [|i].
  - injection Hx as ->. by rewrite Hf.
  - destruct (Hbefore 0%nat a ltac:(lia) eq_refl) as [b Hb]. rewrite Hb.
    cbn [mbind result_bind].
    change (mapM f l ≫= (λ k, mret (b :: k)) = Err e).
    rewrite (IH i Hx Hf); [ reflexivity | ].
    intros j y Hj Hy. apply (Hbefore (S j) y); [ lia | exact Hy ].
Qed.

Lemma forecast_data_take units (m : gmap string value) (items : list value) :
  forecast_data units (VDict (<["list" := VList items]> m))
  = forecast_data units (VDict (<["list" := VList (take 5 items)]> m)).
Proof.
  unfold forecast_data. cbn [path subscript].
  rewrite !lookup_insert_eq. cbn [mbind result_bind slice_to iterate].
  rewrite take_take, Nat.min_id.
  rewrite !(lookup_insert_ne _ "list" "city") by done.
  reflexivity.
Qed.

Section Forecast.

Variable api_key : string.
Variable wording : builtin_error → string.

(** X12. [get_forecast] reads the first five entries of the provider's list
    and nothing after them: the reply is the same when the list is cut after
    the fifth entry, whatever the later entries are. *)
Theorem forecast_reads_five_items (response : Response) (args : query_args)
    (m : gmap string value) (items : list value) :
  fst (run (always (Ok (answering response (VDict (<["list" := VList items]> m)))))
           (get_forecast api_key wording args))
  = fst (run (always (Ok (answering response (VDict (<["list" := VList (take 5 items)]> m)))))
             (get_forecast api_key wording args)).
Proof.
  destruct (get_forecast_run api_key wording
              (always (Ok (answering response (VDict (<["list" := VList items]> m))))) args)
    as (target & params & ->).
  destruct (get_forecast_run api_key wording
              (always (Ok (answering response (VDict (<["list" := VList (take 5 items)]> m)))))
              args)
    as (target' & params' & ->).
  cbn [fst]. unfold always, forecast_reply, answering. cbn [mbind result_bind].
  destruct (raise_for_status _) as [[]|e] eqn:Hst.
  - replace (raise_for_status _) with (Ok () : result ()) by (rewrite <- Hst; reflexivity).
    cbn [mbind result_bind json]. by rewrite forecast_data_take.
  - replace (raise_for_status _) with (Err e : result ()) by (rewrite <- Hst; reflexivity).
    reflexivity.
Qed.

(** X13. When one of the first five entries cannot be converted, the reply is
    a 500 whose message is the text of the error of the first such entry: no
    partial forecast is returned. *)
Theorem forecast_reports_first_bad_item (p : provider) (args : query_args)
    (response : Response) (data : value) (items : list value) (i : nat) (item : value)
    (e : exn) (r : reply) :
  answered_by p (get_forecast api_key wording args) (Ok response) r →
  passes response →
  json response = Ok data →
  path data [KStr "list"] = Ok (VList items) →
  (i < 5)%nat →
  items !! i = Some item →
  forecast_entry item = Err e →
  (∀ j earlier, (j < i)%nat → items !! j = Some earlier → ∃ entry, forecast_entry earlier = Ok entry) →
  r = {| status := 500; body := VDict {[ "error" := VStr (str_exn wording e) ]} |}.
Proof.
  intros Hans Hpass Hjson Hlist Hi Hitem Hbad Hbefore.
  apply answered_by_forecast in Hans. subst r.
  unfold forecast_reply. cbn [mbind result_bind].
  rewrite (raise_for_status_passes _ Hpass). cbn [mbind result_bind]. rewrite Hjson.
  cbn [mbind result_bind]. unfold forecast_data.
  rewrite Hlist. cbn [mbind result_bind slice_to iterate].
  rewrite (mapM_Err_first forecast_entry (take 5 items) i item e).
  - reflexivity.
  - by rewrite lookup_take_lt.
  - exact Hbad.
  - intros j y Hj Hy. apply lookup_take_Some in Hy as [Hy _]. by eapply Hbefore.
Qed.

(** X14. A 200 reply of [get_forecast] echoes the [units] of the request and
    carries the provider's city name and country. *)
Theorem forecast_echoes_units (p : provider) (args : query_args) (data out : value) :
  succeeds_with p (get_forecast api_key wording args) data out →
  path out [KStr "units"] = Ok (VStr (units_of args)) ∧
  path out [KStr "location"; KStr "city"] = path data [KStr "city"; KStr "name"] ∧
  path out [KStr "location"; KStr "country"] = path data [KStr "city"; KStr "country"].
Proof.
  intros Hok. apply succeeds_forecast in Hok.
  unfold forecast_data in Hok. peel Hok. injection Hok as <-.
  split; [ reflexivity | ]. split; copied_field.
Qed.

(** X15. Entry [i] of the forecast of a 200 reply carries the time stamp, the
    condition, the icon code and the humidity of the provider's entry [i],
    unchanged, and an [icon_class] among the nine symbols. *)
Theorem forecast_entry_copies_fields (p : provider) (args : query_args) (data out : value)
    (items : list value) (i : nat) (item : value) :
  succeeds_with p (get_forecast api_key wording args) data out →
  path data [KStr "list"] = Ok (VList items) →
  (i < 5)%nat →
  items !! i = Some item →
  path out [KStr "forecast"; KIdx (Z.of_nat i); KStr "datetime"]
  = path item [KStr "dt_txt"] ∧
  path out [KStr "forecast"; KIdx (Z.of_nat i); KStr "weather"; KStr "main"]
  = path item [KStr "weather"; KIdx 0; KStr "main"] ∧
  path out [KStr "forecast"; KIdx (Z.of_nat i); KStr "weather"; KStr "icon"]
  = path item [KStr "weather"; KIdx 0; KStr "icon"] ∧
  path out [KStr "forecast"; KIdx (Z.of_nat i); KStr "details"; KStr "humidity"]
  = path item [KStr "main"; KStr "humidity"] ∧
  ∃ sym,
    path out [KStr "forecast"; KIdx (Z.of_nat i); KStr "weather"; KStr "icon_class"]
    = Ok (VStr sym) ∧
    sym ∈ symbols.
Proof.
  intros Hok Hlist Hi Hitem. apply succeeds_forecast in Hok.
  destruct (forecast_data_entries _ _ _ _ Hok Hlist) as (entries & Hf & Hall).
  assert (Htake : take 5 items !! i = Some item) by by rewrite lookup_take_lt.
  destruct (Forall2_lookup_l _ _ _ _ _ Hall Htake) as (entry & Hentry & Hbuilt).
  rewrite !(path_cons _ _ _ _ Hf), !(path_index _ _ _ _ Hentry).
  entry_fields Hbuilt.
  repeat split; try copied_field.
  match goal with
  | E' : get_weather_icon_of _ = Ok _ |- _ =>
      destruct (get_weather_icon_of_in_symbols _ _ E') as (sym & -> & Hin & _)
  end.
  exists sym. by split.
Qed.

End Forecast.

Lemma forecast_reports_first_bad_item_witness :
  forecast_reply cpython_wording (units_of [])
    (Ok (response_with 200 "OK" (sample_forecast items_with_a_bad_entry)))
  = {| status := 500; body := VDict {[ "error" := VStr "'dt_txt'" ]} |}.
Proof.
  apply (forecast_reports_first_bad_item placeholder_key cpython_wording
           (always (Ok (response_with 200 "OK" (sample_forecast items_with_a_bad_entry)))) []
           (response_with 200 "OK" (sample_forecast items_with_a_bad_entry))
           (sample_forecast items_with_a_bad_entry) items_with_a_bad_entry
           2%nat (VDict ∅) (KeyError (KStr "dt_txt"))).
  - apply answered_by_always_forecast.
  - unfold passes. cbn. lia.
  - reflexivity.
  - vm_compute. reflexivity.
  - lia.
  - reflexivity.
  - reflexivity.
  - intros [|[|j]] earlier Hj Hearlier; [ | | lia ];
      injection Hearlier as <-; eexists; vm_compute; reflexivity.
Defined.

Lemma forecast_echoes_units_witness :
  path (body (forecast_reply_to (response_with 200 "OK" (sample_forecast seven_items))
                                [("units", "imperial")]))
       [KStr "units"]
  = Ok (VStr "imperial").
Proof.
  apply (forecast_echoes_units placeholder_key cpython_wording
           (always (Ok (response_with 200 "OK" (sample_forecast seven_items))))
           [("units", "imperial")] (sample_forecast seven_items)).
  apply sample_forecast_succeeds. vm_compute. reflexivity.
Defined.

Lemma forecast_entry_copies_fields_witness :
  path (body (forecast_reply_to (response_with 200 "OK" (sample_forecast seven_items)) []))
       [KStr "forecast"; KIdx 4; KStr "datetime"]
  = Ok (VStr "2024-01-01 12:00:00").
Proof.
  etrans;
    [ apply (proj1 (forecast_entry_copies_fields placeholder_key cpython_wording
                      (always (Ok (response_with 200 "OK" (sample_forecast seven_items)))) []
                      (sample_forecast seven_items) _ seven_items 4%nat
                      (sample_item "2024-01-01 12:00:00" "light rain" 1555)
                      ltac:(apply sample_forecast_succeeds; vm_compute; reflexivity)
                      ltac:(vm_compute; reflexivity) ltac:(lia) ltac:(reflexivity)))
    | vm_compute; reflexivity ].
Defined.

(** ** The location handlers *)

Lemma len_at_least_two_nonempty (q : string) : (2 <= len q)%nat → String.eqb q "" = false.
Proof. destruct q; [ cbn; lia | reflexivity ]. Qed.

Lemma location_match_dict (m : gmap string value) :
  ∃ e : gmap string value,
    location_match (VDict m) = Ok (VDict e) ∧
    dom e = {[ "name"; "state"; "country"; "lat"; "lon" ]} ∧
    e !! "name" = Some (default (VStr "") (m !! "name")) ∧
    e !! "state" = Some (default (VStr "") (m !! "state")) ∧
    e !! "country" = Some (default (VStr "") (m !! "country")) ∧
    e !! "lat" = Some (default VNone (m !! "lat")) ∧
    e !! "lon" = Some (default VNone (m !! "lon")).
Proof.
  eexists. split; [ reflexivity | ].
  split; [ apply (bool_decide_unpack _); vm_compute; exact I | ].
  repeat split; reflexivity.
Qed.

Lemma location_match_shape (loc out : value) :
  location_match loc = Ok out →
  ∃ e : gmap string value,
    out = VDict e ∧ dom e = {[ "name"; "state"; "country"; "lat"; "lon" ]}.
Proof.
  destruct loc as [ | | | | | |m]; try discriminate.
  destruct (location_match_dict m) as (e & -> & Hdom & _).
  intros [= <-]. by exists e.
Qed.

Lemma mapM_location_match (ms : list (gmap string value)) :
  ∃ out,
    mapM location_match (VDict <$> ms) = Ok out ∧
    Forall2 (λ m o, location_match (VDict m) = Ok o) ms out.
Proof.
  induction ms as [|m ms (out & Hout & Hall)]; [ by exists [] | ].
  destruct (location_match_dict m) as (e & He & _).
  exists (VDict e :: out). split; [ | by constructor ].
  cbn [fmap list_fmap mapM]. rewrite He. cbn [mbind result_bind].
  change (mapM location_match (VDict <$> ms) ≫= (λ k, mret (VDict e :: k))
          = Ok (VDict e :: out)).
  by rewrite Hout.
Qed.

Section Locations.

Variable api_key : string.
Variable wording : builtin_error → string.

Lemma answered_by_search p args outcome r :
  answered_by p (search_location api_key wording args) outcome r →
  r = search_reply wording outcome.
Proof.
  intros (target & params & Hrun & Hp). unfold search_location in Hrun.
  destruct (String.eqb _ "" || (len _ <? 2)%nat); [ discriminate | ].
  injection Hrun as <- <- <-. by rewrite Hp.
Qed.

Lemma answered_by_reverse p args outcome r :
  answered_by p (reverse_geocode api_key wording args) outcome r →
  r = reverse_reply wording outcome.
Proof.
  intros (target & params & Hrun & Hp). unfold reverse_geocode in Hrun.
  destruct (args_get args "lat") as [lat|], (args_get args "lon") as [lon|];
    try discriminate.
  destruct (String.eqb lat "" || String.eqb lon ""); [ discriminate | ].
  injection Hrun as <- <- <-. by rewrite Hp.
Qed.

Lemma search_location_run (p : provider) (args : query_args) (q : string) :
  args_get args "q" = Some q →
  (2 <= len q)%nat →
  run p (search_location api_key wording args)
  = (search_reply wording
       (p "http://api.openweathermap.org/geo/1.0/direct"
          {[ "q" := PStr q; "limit" := PInt 5; "appid" := PStr api_key ]}),
     [("http://api.openweathermap.org/geo/1.0/direct",
       {[ "q" := PStr q; "limit" := PInt 5; "appid" := PStr api_key ]})]).
Proof.
  intros Hq Hlen. unfold search_location. rewrite Hq. cbv zeta. simpl default.
  rewrite (len_at_least_two_nonempty q Hlen).
  destruct (Nat.ltb_spec (len q) 2); [ lia | ]. reflexivity.
Qed.

Lemma reverse_geocode_run (p : provider) (args : query_args) (lat lon : string) :
  args_get args "lat" = Some lat →
  args_get args "lon" = Some lon →
  lat ≠ "" → lon ≠ "" →
  run p (reverse_geocode api_key wording args)
  = (reverse_reply wording
       (p "http://api.openweathermap.org/geo/1.0/reverse"
          {[ "lat" := PStr lat; "lon" := PStr lon; "limit" := PInt 1;
             "appid" := PStr api_key ]}),
     [("http://api.openweathermap.org/geo/1.0/reverse",
       {[ "lat" := PStr lat; "lon" := PStr lon; "limit" := PInt 1;
          "appid" := PStr api_key ]})]).
Proof.
  intros Hla Hlo Hlat Hlon. unfold reverse_geocode. rewrite Hla, Hlo.
  apply String.eqb_neq in Hlat, Hlon. rewrite Hlat, Hlon. reflexivity.
Qed.

Lemma answered_by_always_search (outcome : result Response) args q :
  args_get args "q" = Some q →
  (2 <= len q)%nat →
  answered_by (always outcome) (search_location api_key wording args) outcome
              (search_reply wording outcome).
Proof.
  intros Hq Hlen.
  exists "http://api.openweathermap.org/geo/1.0/direct",
         {[ "q" := PStr q; "limit" := PInt 5; "appid" := PStr api_key ]}.
  split; [ | reflexivity ].
  by rewrite (search_location_run (always outcome) args q Hq Hlen).
Qed.

Lemma answered_by_always_reverse (outcome : result Response) args lat lon :
  args_get args "lat" = Some lat →
  args_get args "lon" = Some lon →
  lat ≠ "" → lon ≠ "" →
  answered_by (always outcome) (reverse_geocode api_key wording args) outcome
              (reverse_reply wording outcome).
Proof.
  intros Hla Hlo Hlat Hlon.
  exists "http://api.openweathermap.org/geo/1.0/reverse",
         {[ "lat" := PStr lat; "lon" := PStr lon; "limit" := PInt 1;
            "appid" := PStr api_key ]}.
  split; [ | reflexivity ].
  by rewrite (reverse_geocode_run (always outcome) args lat lon Hla Hlo Hlat Hlon).
Qed.

(** X16. With a [q] of two characters or more, [search_location] sends one
    request to the geocoding endpoint with the query as it came, a limit of
    five and the credential, and replies from what comes back. *)
Theorem search_location_request (p : provider) (args : query_args) (q : string) :
  args_get args "q" = Some q →
  (2 <= len q)%nat →
  ∃ params : gmap string param,
    run p (search_location api_key wording args)
    = (search_reply wording (p "http://api.openweathermap.org/geo/1.0/direct" params),
       [("http://api.openweathermap.org/geo/1.0/direct", params)]) ∧
    params !! "q" = Some (PStr q) ∧
    params !! "limit" = Some (PInt 5) ∧
    params !! "appid" = Some (PStr api_key) ∧
    dom params = {[ "q"; "limit"; "appid" ]}.
Proof.
  intros Hq Hlen. eexists. split; [ by apply search_location_run | ].
  repeat split.
Qed.

(** X17. When the provider sends a list of objects, [search_location] replies
    200 with one match per object, in the same order and without cutting the
    list; each match has exactly the keys [name], [state], [country], [lat]
    and [lon], with the empty string for a missing name, state or country
    and null for a missing coordinate. *)
Theorem search_lists_every_match (p : provider) (args : query_args) (response : Response)
    (ms : list (gmap string value)) (r : reply) :
  answered_by p (search_location api_key wording args) (Ok response) r →
  passes response →
  json response = Ok (VList (VDict <$> ms)) →
  ∃ out,
    r = {| status := 200; body := VList out |} ∧
    length out = length ms ∧
    ∀ i m, ms !! i = Some m →
      ∃ e : gmap string value,
        out !! i = Some (VDict e) ∧
        dom e = {[ "name"; "state"; "country"; "lat"; "lon" ]} ∧
        e !! "name" = Some (default (VStr "") (m !! "name")) ∧
        e !! "state" = Some (default (VStr "") (m !! "state")) ∧
        e !! "country" = Some (default (VStr "") (m !! "country")) ∧
        e !! "lat" = Some (default VNone (m !! "lat")) ∧
        e !! "lon" = Some (default VNone (m !! "lon")).
Proof.
  intros Hans Hpass Hjson. apply answered_by_search in Hans. subst r.
  destruct (mapM_location_match ms) as (out & Hout & Hall).
  exists out. split; [ | split ].
  - unfold search_reply. cbn [mbind result_bind].
    rewrite (raise_for_status_passes _ Hpass). cbn [mbind result_bind]. rewrite Hjson.
    cbn [mbind result_bind iterate]. rewrite Hout. reflexivity.
  - symmetry. by eapply Forall2_length.
  - intros i m Hm.
    destruct (Forall2_lookup_l _ _ _ _ _ Hall Hm) as (o & Ho & Hbuilt).
    destruct (location_match_dict m) as (e & He & Hfields).
    exists e. split; [ | exact Hfields ]. congruence.
Qed.

(** X18. [search_location] replies either 200 with a JSON list or 500 with a
    body that holds the [error] message and nothing else. *)
Theorem search_replies_are_whole (p : provider) (args : query_args) :
  (status (fst (run p (search_location api_key wording args))) = 200%Z ∧
   ∃ l, body (fst (run p (search_location api_key wording args))) = VList l) ∨
  (status (fst (run p (search_location api_key wording args))) = 500%Z ∧
   error_only (fst (run p (search_location api_key wording args)))).
Proof.
  unfold search_location.
  destruct (String.eqb _ "" || (len _ <? 2)%nat); [ left; split; [ done | by eexists ] | ].
  cbn [mbind prog_mbind prog_bind requests_get mret prog_ret run fst].
  unfold search_reply.
  destruct (p _ _) as [response|e]; [ | right; apply error_reply_500 ].
  cbn [mbind result_bind].
  destruct (raise_for_status response) as [[]|e]; [ | right; apply error_reply_500 ].
  cbn [mbind result_bind].
  destruct (json response) as [locations|e]; [ | right; apply error_reply_500 ].
  cbn [mbind result_bind].
  destruct (iterate locations) as [items|e]; [ | right; apply error_reply_500 ].
  cbn [mbind result_bind].
  destruct (mapM location_match items) as [out|e]; [ | right; apply error_reply_500 ].
  left. split; [ reflexivity | by eexists ].
Qed.

(** X19. When the provider's JSON is empty (an empty list, or any other
    value that counts as false), [reverse_geocode] replies 404 with the
    no-location message. *)
Theorem reverse_geocode_no_match (p : provider) (args : query_args) (response : Response)
    (data : value) (r : reply) :
  answered_by p (reverse_geocode api_key wording args) (Ok response) r →
  passes response →
  json response = Ok data →
  truthy data = false →
  r = {| status := 404;
         body := VDict {[ "error" := VStr "No location found for these coordinates" ]} |}.
Proof.
  intros Hans Hpass Hjson Hfalse. apply answered_by_reverse in Hans. subst r.
  unfold reverse_reply. cbn [mbind result_bind].
  rewrite (raise_for_status_passes _ Hpass). cbn [mbind result_bind]. rewrite Hjson.
  cbn [mbind result_bind]. rewrite Hfalse. reflexivity.
Qed.

(** X20. When the provider sends a list that starts with an object,
    [reverse_geocode] replies 200 with the match made of that object alone:
    the five keys, with the same defaults as in the search, whatever follows
    in the list. *)
Theorem reverse_geocode_first_match (p : provider) (args : query_args) (response : Response)
    (m : gmap string value) (others : list value) (r : reply) :
  answered_by p (reverse_geocode api_key wording args) (Ok response) r →
  passes response →
  json response = Ok (VList (VDict m :: others)) →
  ∃ e : gmap string value,
    r = {| status := 200; body := VDict e |} ∧
    dom e = {[ "name"; "state"; "country"; "lat"; "lon" ]} ∧
    e !! "name" = Some (default (VStr "") (m !! "name")) ∧
    e !! "state" = Some (default (VStr "") (m !! "state")) ∧
    e !! "country" = Some (default (VStr "") (m !! "country")) ∧
    e !! "lat" = Some (default VNone (m !! "lat")) ∧
    e !! "lon" = Some (default VNone (m !! "lon")).
Proof.
  intros Hans Hpass Hjson. apply answered_by_reverse in Hans. subst r.
  destruct (location_match_dict m) as (e & He & Hfields).
  exists e. split; [ | exact Hfields ].
  unfold reverse_reply. cbn [mbind result_bind].
  rewrite (raise_for_status_passes _ Hpass). cbn [mbind result_bind]. rewrite Hjson.
  cbn [mbind result_bind]. change (truthy (VList (VDict m :: others))) with true.
  change (subscript (VList (VDict m :: others)) (KIdx 0)) with (Ok (VDict m) : result value).
  cbn [mbind result_bind]. rewrite He. reflexivity.
Qed.

(** X21. [reverse_geocode] replies with one of four statuses: 200 with a
    match of five keys, or 400, 404 or 500 with a body that holds the
    [error] message and nothing else. *)
Theorem reverse_replies_are_whole (p : provider) (args : query_args) :
  (status (fst (run p (reverse_geocode api_key wording args))) = 200%Z ∧
   ∃ e : gmap string value,
     body (fst (run p (reverse_geocode api_key wording args))) = VDict e ∧
     dom e = {[ "name"; "state"; "country"; "lat"; "lon" ]}) ∨
  (status (fst (run p (reverse_geocode api_key wording args))) ∈ [400; 404; 500]%Z ∧
   error_only (fst (run p (reverse_geocode api_key wording args)))).
Proof.
  assert (Hbad : ∀ message code, code ∈ [400; 404; 500]%Z →
            status (with_status (error_body message) code) ∈ [400; 404; 500]%Z ∧
            error_only (with_status (error_body message) code)).
  { intros message code Hcode. split; [ exact Hcode | by exists message ]. }
  unfold reverse_geocode.
  destruct (args_get args "lat") as [lat|], (args_get args "lon") as [lon|];
    try (right; apply Hbad; by repeat constructor).
  destruct (String.eqb lat "" || String.eqb lon "");
    [ right; apply Hbad; by repeat constructor | ].
  cbn [mbind prog_mbind prog_bind requests_get mret prog_ret run fst].
  unfold reverse_reply.
  destruct (p _ _) as [response|e]; [ | right; apply Hbad; by repeat constructor ].
  cbn [mbind result_bind].
  destruct (raise_for_status response) as [[]|e];
    [ | right; apply Hbad; by repeat constructor ].
  cbn [mbind result_bind].
  destruct (json response) as [locations|e]; [ | right; apply Hbad; by repeat constructor ].
  cbn [mbind result_bind].
  destruct (truthy locations); [ | right; apply Hbad; by repeat constructor ].
  destruct (subscript locations (KIdx 0)) as [loc|e];
    [ | right; apply Hbad; by repeat constructor ].
  cbn [mbind result_bind].
  destruct (location_match loc) as [out|e] eqn:Hloc;
    [ | right; apply Hbad; by repeat constructor ].
  left. split; [ reflexivity | ]. by apply location_match_shape in Hloc.
Qed.

(** X22. A provider status from 400 to 599 makes [get_forecast],
    [search_location] and [reverse_geocode] reply 500 with the text of the
    [HTTPError] as the message, without any prefix. *)
Theorem http_error_is_reported_verbatim (p : provider) (args : query_args)
    (response : Response) (r : reply) :
  (400 <= status_code response < 600)%Z →
  answered_by p (get_forecast api_key wording args) (Ok response) r ∨
  answered_by p (search_location api_key wording args) (Ok response) r ∨
  answered_by p (reverse_geocode api_key wording args) (Ok response) r →
  r = {| status := 500; body := VDict {[ "error" := VStr (http_error_message response) ]} |}.
Proof.
  intros Hcode [Hans|[Hans|Hans]].
  - apply answered_by_forecast in Hans. subst r.
    unfold forecast_reply. cbn [mbind result_bind].
    by rewrite (raise_for_status_error _ Hcode).
  - apply answered_by_search in Hans. subst r.
    unfold search_reply. cbn [mbind result_bind].
    by rewrite (raise_for_status_error _ Hcode).
  - apply answered_by_reverse in Hans. subst r.
    unfold reverse_reply. cbn [mbind result_bind].
    by rewrite (raise_for_status_error _ Hcode).
Qed.

End Locations.

Lemma search_location_request_witness :
  ∃ params : gmap string param,
    run (always (Ok (response_with 200 "OK" sample_locations)))
        (search_location placeholder_key cpython_wording [("q", "Lo")])
    = (search_reply cpython_wording (Ok (response_with 200 "OK" sample_locations)),
       [("http://api.openweathermap.org/geo/1.0/direct", params)]) ∧
    params !! "q" = Some (PStr "Lo").
Proof.
  destruct (search_location_request placeholder_key cpython_wording
              (always (Ok (response_with 200 "OK" sample_locations))) [("q", "Lo")] "Lo"
              ltac:(reflexivity) ltac:(vm_compute; lia))
    as (params & Hrun & Hq & _).
  exists params. split; [ exact Hrun | exact Hq ].
Defined.

Lemma search_lists_every_match_witness :
  ∃ out,
    search_reply cpython_wording (Ok (response_with 200 "OK" sample_locations))
    = {| status := 200; body := VList out |} ∧
    length out = 2%nat.
Proof.
  destruct (search_lists_every_match placeholder_key cpython_wording
              (always (Ok (response_with 200 "OK" sample_locations))) [("q", "London")]
              (response_with 200 "OK" sample_locations) sample_location_objects
              (search_reply cpython_wording (Ok (response_with 200 "OK" sample_locations))))
    as (out & Hr & Hlen & _).
  - apply (answered_by_always_search _ _ _ _ "London"); [ reflexivity | vm_compute; lia ].
  - unfold passes. cbn. lia.
  - reflexivity.
  - exists out. split; [ exact Hr | exact Hlen ].
Defined.

Lemma reverse_geocode_no_match_witness :
  reverse_reply cpython_wording (Ok (response_with 200 "OK" (VList [])))
  = {| status := 404;
       body := VDict {[ "error" := VStr "No location found for these coordinates" ]} |}.
Proof.
  apply (reverse_geocode_no_match placeholder_key cpython_wording
           (always (Ok (response_with 200 "OK" (VList []))))
           [("lat", "51.5"); ("lon", "-0.12")]
           (response_with 200 "OK" (VList [])) (VList [])).
  - apply (answered_by_always_reverse _ _ _ _ "51.5" "-0.12");
      [ reflexivity | reflexivity | discriminate | discriminate ].
  - unfold passes. cbn. lia.
  - reflexivity.
  - reflexivity.
Defined.

Lemma reverse_geocode_first_match_witness :
  ∃ e : gmap string value,
    reverse_reply cpython_wording (Ok (response_with 200 "OK" sample_locations))
    = {| status := 200; body := VDict e |} ∧
    e !! "state" = Some (VStr "England").
Proof.
  destruct (reverse_geocode_first_match placeholder_key cpython_wording
              (always (Ok (response_with 200 "OK" sample_locations)))
              [("lat", "51.5"); ("lon", "-0.12")]
              (response_with 200 "OK" sample_locations)
              (list_to_map
                 [("name", VStr "London"); ("state", VStr "England"); ("country", VStr "GB");
                  ("lat", VFloat (float_of_ratio 515073 10000));
                  ("lon", VFloat (float_of_ratio (-1276) 10000));
                  ("local_names", VDict (list_to_map [("fr", VStr "Londres")]))])
              [VDict (list_to_map [("name", VStr "London"); ("country", VStr "CA")])]
              (reverse_reply cpython_wording (Ok (response_with 200 "OK" sample_locations))))
    as (e & Hr & _ & _ & Hstate & _).
  - apply (answered_by_always_reverse _ _ _ _ "51.5" "-0.12");
      [ reflexivity | reflexivity | discriminate | discriminate ].
  - unfold passes. cbn. lia.
  - reflexivity.
  - exists e. split; [ exact Hr | ]. rewrite Hstate. vm_compute. reflexivity.
Defined.

Lemma http_error_is_reported_verbatim_witness :
  forecast_reply cpython_wording (units_of [])
                 (Ok (response_with 401 "Unauthorized" (VDict {[ "cod" := VInt 401 ]})))
  = {| status := 500;
       body := VDict {[ "error" := VStr
         "401 Client Error: Unauthorized for url: http://api.openweathermap.org/data/2.5/weather?q=London%2CUK&appid=your_api_key_here&units=metric" ]} |}.
Proof.
  etrans;
    [ apply (http_error_is_reported_verbatim placeholder_key cpython_wording
               (always (Ok (response_with 401 "Unauthorized" (VDict {[ "cod" := VInt 401 ]}))))
               [] (response_with 401 "Unauthorized" (VDict {[ "cod" := VInt 401 ]})))
    | vm_compute; reflexivity ].
  - cbn. lia.
  - left. apply answered_by_always_forecast.
Defined.

(** ** What the provider's JSON has to be, and what is ignored in it *)

Lemma path_insert_ne (m : gmap string value) (k k' : string) (v : value) (ks : list key) :
  k ≠ k' → path (VDict (<[k := v]> m)) (KStr k' :: ks) = path (VDict m) (KStr k' :: ks).
Proof. intros Hne. cbn [path subscript]. by rewrite lookup_insert_ne. Qed.

Lemma get_insert_ne (m : gmap string value) (k k' : string) (v dflt : value) :
  k ≠ k' → get (VDict (<[k := v]> m)) k' dflt = get (VDict m) k' dflt.
Proof. intros Hne. cbn [get]. by rewrite lookup_insert_ne. Qed.

Lemma weather_data_insert_unused units (m : gmap string value) (k : string) (v : value) :
  k ∉ ["name"; "sys"; "coord"; "main"; "weather"; "wind"; "clouds"; "visibility"; "timezone"] →
  weather_data units (VDict (<[k := v]> m)) = weather_data units (VDict m).
Proof.
  intros Hk. rewrite !not_elem_of_cons in Hk.
  destruct Hk as (? & ? & ? & ? & ? & ? & ? & ? & ? & _).
  unfold weather_data.
  rewrite !path_insert_ne, !get_insert_ne by assumption. reflexivity.
Qed.

Lemma round1_number (v out : value) : round1 v = Ok out → is_Some (as_number v).
Proof. destruct v; try discriminate; intros _; by eexists. Qed.

Lemma truediv_number (a b out : value) : truediv a b = Ok out → is_Some (as_number a).
Proof. unfold truediv. destruct (as_number a); [ by eexists | discriminate ]. Qed.

Section Provider.

Variable api_key : string.
Variable wording : builtin_error → string.

(** X23. With [units=standard] no [units] parameter is sent, so that the
    provider answers on its default scale, and the temperature is still
    labelled as for [imperial]. *)
Theorem standard_units_are_labelled_like_imperial (p : provider) (args : query_args)
    (data out : value) :
  units_of args = "standard" →
  succeeds_with p (get_current_weather api_key wording args) data out →
  (∃ params : gmap string param,
     snd (run p (get_current_weather api_key wording args))
     = [("http://api.openweathermap.org/data/2.5/weather", params)] ∧
     params !! "units" = None) ∧
  path out [KStr "temperature"; KStr "unit"] = Ok (VStr label_other).
Proof.
  intros Hunits Hok. split.
  - eexists. split; [ reflexivity | ].
    unfold add_units. fold (units_of args). rewrite Hunits. reflexivity.
  - rewrite (unit_label _ _ _ _ _ _ Hok), Hunits. reflexivity.
Qed.

(** X24. A field of the provider's object that [get_current_weather] does not
    read changes nothing in the reply. *)
Theorem unknown_provider_fields_are_ignored (response : Response) (args : query_args)
    (m : gmap string value) (k : string) (v : value) :
  k ∉ ["name"; "sys"; "coord"; "main"; "weather"; "wind"; "clouds"; "visibility"; "timezone"] →
  fst (run (always (Ok (answering response (VDict (<[k := v]> m)))))
           (get_current_weather api_key wording args))
  = fst (run (always (Ok (answering response (VDict m))))
             (get_current_weather api_key wording args)).
Proof.
  intros Hk.
  destruct (get_current_weather_run api_key wording
              (always (Ok (answering response (VDict (<[k := v]> m))))) args)
    as (target & params & ->).
  destruct (get_current_weather_run api_key wording
              (always (Ok (answering response (VDict m)))) args)
    as (target' & params' & ->).
  cbn [fst]. unfold always, current_weather_reply, answering. cbn [mbind result_bind].
  destruct (raise_for_status _) as [[]|e] eqn:Hst.
  - replace (raise_for_status _) with (Ok () : result ()) by (rewrite <- Hst; reflexivity).
    cbn [mbind result_bind json]. by rewrite (weather_data_insert_unused _ _ _ _ Hk).
  - replace (raise_for_status _) with (Err e : result ()) by (rewrite <- Hst; reflexivity).
    reflexivity.
Qed.

(** X25. A 200 reply of [get_current_weather] needs the four temperatures and
    the wind speed to be numbers, the visibility to be a number when the
    provider sends one (a null does not get the default), and the
    description to be a string. *)
Theorem provider_field_types (p : provider) (args : query_args) (data out : value) :
  succeeds_with p (get_current_weather api_key wording args) data out →
  Forall (λ ks, ∃ v, path data ks = Ok v ∧ is_Some (as_number v))
         [[KStr "main"; KStr "temp"];
          [KStr "main"; KStr "feels_like"];
          [KStr "main"; KStr "temp_min"];
          [KStr "main"; KStr "temp_max"];
          [KStr "wind"; KStr "speed"]] ∧
  (∃ m : gmap string value,
     data = VDict m ∧ ∀ v, m !! "visibility" = Some v → is_Some (as_number v)) ∧
  (∃ d, path data [KStr "weather"; KIdx 0; KStr "description"] = Ok (VStr d)).
Proof.
  intros Hok. apply succeeds_current in Hok. split; [ | split ].
  - weather_fields Hok.
    repeat constructor;
      (eexists; split; [ eassumption | eapply round1_number; eassumption ]).
  - destruct (weather_data_visibility _ _ _ Hok) as (m & q & -> & Hdiv & _).
    exists m. split; [ reflexivity | ]. intros v Hv. rewrite Hv in Hdiv.
    by eapply truediv_number.
  - weather_fields Hok.
    match goal with
    | E : path data [KStr "weather"; KIdx 0%Z; KStr "description"] = Ok ?a,
      E' : capitalize_method ?a = Ok _ |- _ =>
        destruct a; try discriminate; eexists; exact E
    end.
Qed.

End Provider.

Lemma standard_units_are_labelled_like_imperial_witness :
  path (body (current_reply_to (response_with 200 "OK" london) [("units", "standard")]))
       [KStr "temperature"; KStr "unit"]
  = Ok (VStr label_other).
Proof.
  apply (standard_units_are_labelled_like_imperial placeholder_key cpython_wording
           (always (Ok (response_with 200 "OK" london))) [("units", "standard")] london).
  - reflexivity.
  - apply sample_current_succeeds. vm_compute. reflexivity.
Defined.

Lemma unknown_provider_fields_are_ignored_witness :
  fst (run (always (Ok (answering (response_with 200 "OK" VNone)
                          (VDict (<["rain" := VDict {[ "1h" := VInt 3 ]}]> london_object)))))
           (get_current_weather placeholder_key cpython_wording []))
  = fst (run (always (Ok (answering (response_with 200 "OK" VNone) (VDict london_object))))
             (get_current_weather placeholder_key cpython_wording [])).
Proof.
  apply (unknown_provider_fields_are_ignored placeholder_key cpython_wording).
  rewrite !not_elem_of_cons. repeat split; try discriminate. apply not_elem_of_nil.
Defined.

Lemma provider_field_types_witness :
  ∃ d, path london [KStr "weather"; KIdx 0; KStr "description"] = Ok (VStr d).
Proof.
  apply (provider_field_types placeholder_key cpython_wording
           (always (Ok (response_with 200 "OK" london))) [] london
           (body (current_reply_to (response_with 200 "OK" london) []))).
  apply sample_current_succeeds. vm_compute. reflexivity.
Defined.

(** ** The forecast without its list *)

Section ForecastErrors.

Variable api_key : string.
Variable wording : builtin_error → string.

(** X26. When the provider's object has no [list], [get_forecast] replies 500
    and the message is the bare quoted key, with no explanatory prefix. *)
Theorem forecast_missing_list_is_bare_key (p : provider) (args : query_args)
    (response : Response) (m : gmap string value) (r : reply) :
  answered_by p (get_forecast api_key wording args) (Ok response) r →
  passes response →
  json response = Ok (VDict m) →
  m !! "list" = None →
  r = {| status := 500; body := VDict {[ "error" := VStr "'list'" ]} |}.
Proof.
  intros Hans Hpass Hjson Hlist. apply answered_by_forecast in Hans. subst r.
  unfold forecast_reply. cbn [mbind result_bind].
  rewrite (raise_for_status_passes _ Hpass). cbn [mbind result_bind]. rewrite Hjson.
  cbn [mbind result_bind]. unfold forecast_data. cbn [path subscript].
  rewrite Hlist. reflexivity.
Qed.

End ForecastErrors.

Lemma forecast_missing_list_is_bare_key_witness :
  forecast_reply cpython_wording (units_of [])
                 (Ok (response_with 200 "OK" (VDict {[ "cod" := VStr "200" ]})))
  = {| status := 500; body := VDict {[ "error" := VStr "'list'" ]} |}.
Proof.
  apply (forecast_missing_list_is_bare_key placeholder_key cpython_wording
           (always (Ok (response_with 200 "OK" (VDict {[ "cod" := VStr "200" ]})))) []
           (response_with 200 "OK" (VDict {[ "cod" := VStr "200" ]}))
           {[ "cod" := VStr "200" ]}).
  - apply answered_by_always_forecast.
  - unfold passes. cbn. lia.
  - reflexivity.
  - reflexivity.
Defined.
